(** * Study Coach tools: a shallow embedding of [app/agent.py]

    The three tools of the Study Coach agent ([get_module_outline],
    [build_study_schedule], [suggest_practice_tasks]) and the two tables
    they read ([SYLLABUS], [PRACTICE_TASKS]) are transcribed below, and the
    properties of the schedule builder are proved about the transcription.

    Modelling decisions.
    - Python [str] is the Standard Library's [string]; the string methods
      the tools call ([lower], [strip], [split], [in], [join]) are written
      out for ASCII text.
    - Python [dict] is stdpp's [gmap].  The schedule dictionary is created
      with the keys [1 .. days_until_exam] in increasing order and no key
      is added afterwards, so iterating over [schedule.items()] is
      iterating over [seqZ 1 days_until_exam].
    - Python [int] is [Z].  Python [float] is idealised as exact rational
      arithmetic on [Q]: [+], [-], [*], [/] and the comparisons are exact,
      and [round(x, 1)] rounds the exact value to the nearest tenth, ties
      to the even tenth.  Binary rounding, overflow and underflow of
      IEEE-754 doubles are outside the model.
    - A subscript on a missing key and a division by zero raise; the
      [while] loop runs on fuel.  [outcome] records the three ways a call
      can end.
    - [log_tool] appends to a global list that none of the three results
      depends on; it is left out. *)

From stdpp Require Import gmap strings list fin_maps.
From Stdlib Require Import Ascii String QArith Qround Qabs Lqa DecimalString.

Open Scope string_scope.

(** ** Python string methods *)

Module PyStr.

Definition nl : string := String (ascii_of_nat 10) EmptyString.

Definition is_upper (c : ascii) : bool :=
  let n := nat_of_ascii c in (65 <=? n)%nat && (n <=? 90)%nat.

Definition lower_char (c : ascii) : ascii :=
  if is_upper c then ascii_of_nat (nat_of_ascii c + 32) else c.

(** [s.lower()] *)
Fixpoint lower (s : string) : string :=
  match s with
  | EmptyString => EmptyString
  | String c s' => String (lower_char c) (lower s')
  end.

(** [c.isspace()] on ASCII: TAB, LF, VT, FF, CR, FS, GS, RS, US, SPACE. *)
Definition is_space (c : ascii) : bool :=
  let n := nat_of_ascii c in
  ((9 <=? n)%nat && (n <=? 13)%nat) || ((28 <=? n)%nat && (n <=? 32)%nat).

Fixpoint lstrip (s : string) : string :=
  match s with
  | EmptyString => EmptyString
  | String c s' => if is_space c then lstrip s' else s
  end.

Fixpoint rstrip (s : string) : string :=
  match s with
  | EmptyString => EmptyString
  | String c s' =>
      match rstrip s' with
      | EmptyString => if is_space c then EmptyString else String c EmptyString
      | r => String c r
      end
  end.

(** [s.strip()] *)
Definition strip (s : string) : string := rstrip (lstrip s).

(** [s.split(sep)] for a one-character separator: never the empty list. *)
Fixpoint split (sep : ascii) (s : string) : list string :=
  match s with
  | EmptyString => [EmptyString]
  | String c s' =>
      if Ascii.eqb c sep then EmptyString :: split sep s'
      else match split sep s' with
           | [] => [String c EmptyString]
           | w :: ws => String c w :: ws
           end
  end.

(** [w in t]: [w] occurs in [t] as a contiguous substring. *)
Fixpoint contains (w t : string) : bool :=
  String.prefix w t ||
  match t with
  | EmptyString => false
  | String _ t' => contains w t'
  end.

(** [sep.join(lines)] *)
Definition join (sep : string) (lines : list string) : string :=
  String.concat sep lines.

(** Truthiness of a string: [bool(s)]. *)
Definition truthy (s : string) : bool :=
  match s with EmptyString => false | String _ _ => true end.

(** [f"{n}"] for an [int]. *)
Definition str_int (n : Z) : string := NilZero.string_of_int (Z.to_int n).

End PyStr.

Import PyStr.

(** ** Syllabus and practice-task data (agent.py, lines 32-69) *)

Definition SYLLABUS : gmap string (list string) :=
  {[ "generative ai" :=
       [ "LLM fundamentals";
         "Prompt engineering";
         "OpenAI & Groq APIs";
         "LangChain basics";
         "Agents and Tools";
         "RAG";
         "Agent security & guardrails" ] ]}.

Definition PRACTICE_TASKS : gmap string (list string) :=
  list_to_map
    [ ("LLM fundamentals",
       [ "Explain in your own words what an LLM is and how it is trained.";
         "Compare two LLM architectures and list their pros/cons." ]);
      ("Prompt engineering",
       [ "Write prompts in zero-shot, few-shot and chain-of-thought styles.";
         "Rewrite a vague prompt into a precise, constrained one." ]);
      ("LangChain basics",
       [ "Build a simple LangChain LLMChain using a PromptTemplate.";
         "Create a LangChain chain that calls two steps in sequence." ]);
      ("Agents and Tools",
       [ "Create a ReAct agent that uses at least two tools.";
         "Implement a custom LangChain tool and expose it to an agent." ]);
      ("RAG",
       [ "Implement a basic RAG pipeline using a single PDF.";
         "Experiment with different chunk sizes and compare answer quality." ]);
      ("Agent security & guardrails",
       [ "Design a simple prompt-based safety policy for your agent.";
         "Add checks to block obviously unsafe or irrelevant queries." ]) ].

(** ** Shared pieces of the three tools *)

(** [f"No module named '{module_name}' found."] *)
Definition not_found (module_name : string) : string :=
  "No module named '" ++ module_name ++ "' found.".

(** [SYLLABUS.get(module_name.lower().strip())] followed by the test
    [if not topics]: [None] when the key is missing or its list is empty. *)
Definition lookup_topics (module_name : string) : option (list string) :=
  match SYLLABUS !! strip (lower module_name) with
  | None => None
  | Some [] => None
  | Some topics => Some topics
  end.

(** [[x.strip().lower() for x in text.split(",") if x.strip()]] *)
Definition comma_list (text : string) : list string :=
  map (fun x => lower (strip x))
      (List.filter (fun x => truthy (strip x)) (split "," text)).

(** [any(w in t.lower() for w in words)] *)
Definition any_in (words : list string) (t : string) : bool :=
  existsb (fun w => contains w (lower t)) words.

Definition is_nil {A : Type} (l : list A) : bool :=
  match l with [] => true | _ :: _ => false end.

(** ** get_module_outline (agent.py, lines 76-90) *)

Definition get_module_outline (module_name : string) : string :=
  match lookup_topics module_name with
  | None => not_found module_name
  | Some topics =>
      let lines := ["Topics for " ++ module_name ++ ":"] in
      let lines := (lines ++ map (fun t => "- " ++ t)%string topics)%list in
      join nl lines
  end.

(** ** suggest_practice_tasks (agent.py, lines 160-193) *)

(** Line 181: [PRACTICE_TASKS.get(topic, [])]. *)
Definition tasks_of (topic : string) : list string :=
  default [] (PRACTICE_TASKS !! topic).

(** Lines 185-188: the lines appended for a topic that passed both tests. *)
Definition topic_block (topic : string) (tasks : list string) : list string :=
  (["* " ++ topic]%string ++ map (fun t => "  - " ++ t)%string tasks
     ++ [EmptyString])%list.

(** The [for topic in topics] loop, with its two [continue]s. *)
Fixpoint practice_loop (focus_list topics lines : list string) : list string :=
  match topics with
  | [] => lines
  | topic :: rest =>
      if negb (is_nil focus_list) && negb (any_in focus_list topic)
      then practice_loop focus_list rest lines
      else
        let tasks := tasks_of topic in
        if is_nil tasks
        then practice_loop focus_list rest lines
        else practice_loop focus_list rest (lines ++ topic_block topic tasks)%list
  end.

Definition no_matches : string :=
  "No specific practice tasks found for the given focus topics.".

Definition suggest_practice_tasks (module_name focus_topics : string) : string :=
  match lookup_topics module_name with
  | None => not_found module_name
  | Some topics =>
      let focus_list := comma_list focus_topics in
      let lines := practice_loop focus_list topics ["Practice tasks:"] in
      if (List.length lines =? 1)%nat then no_matches else join nl lines
  end.

(** ** Outcomes of a call *)

Inductive exn : Type := ZeroDivisionError | KeyError.

(** A call returns a value, raises, or is still running when the fuel of
    its [while] loop is spent. *)
Inductive outcome (A : Type) : Type :=
| Done (a : A)
| Raised (e : exn)
| OutOfFuel.

Arguments Done {A} a.
Arguments Raised {A} e.
Arguments OutOfFuel {A}.

#[global] Instance outcome_ret : MRet outcome := fun A a => Done a.

#[global] Instance outcome_bind : MBind outcome := fun A B k c =>
  match c with
  | Done a => k a
  | Raised e => Raised e
  | OutOfFuel => OutOfFuel
  end.

(** ** Python numbers, with [float] as exact rationals *)

Module PyNum.

Local Open Scope Q_scope.

(** [a < b] *)
Definition Qlt_bool (a b : Q) : bool := negb (Qle_bool b a).

(** [min(a, b)]: the first argument unless the second is smaller. *)
Definition py_min (a b : Q) : Q := if Qlt_bool b a then b else a.

(** The integer nearest to [x], ties to the even one. *)
Definition round_half_even (x : Q) : Z :=
  let f := Qfloor x in
  match Qcompare (x - inject_Z f) (1 # 2) with
  | Lt => f
  | Gt => (f + 1)%Z
  | Eq => if Z.even f then f else (f + 1)%Z
  end.

(** [round(x, 1)] *)
Definition round1 (x : Q) : Q := round_half_even (x * 10) # 10.

(** [sum(xs)] of floats: from 0, left to right. *)
Definition sum_float (xs : list Q) : Q := fold_left Qplus xs 0.

(** [sum(xs)] of ints. *)
Definition sum_int (xs : list Z) : Z := fold_left Z.add xs 0%Z.

(** [a / b] on two ints: true division, which raises on [b = 0]. *)
Definition true_div (a b : Z) : outcome Q :=
  if (b =? 0)%Z then Raised ZeroDivisionError
  else Done (inject_Z a / inject_Z b).

End PyNum.

Import PyNum.

(** ** build_study_schedule (agent.py, lines 94-156) *)

(** One [(topic, hours)] entry and the [schedule] dictionary. *)
Abbreviation entry := (string * Q)%type.
Abbreviation schedule_t := (gmap Z (list (string * Q))).

(** Line 117: the weak substrings. *)
Definition weak_list_of (weak_topics : string) : list string :=
  comma_list weak_topics.

(** Lines 120-122: [2] for a weak topic, [1] otherwise. *)
Definition weights_of (weak_list topics : list string) : list Z :=
  map (fun t => if any_in weak_list t then 2%Z else 1%Z) topics.

(** Line 125: [[(w / total_weight) * total_hours for w in weights]]. *)
Fixpoint hours_per_topic_of (weights : list Z) (total_weight : Z)
    (total_hours : Q) : outcome (list Q) :=
  match weights with
  | [] => Done []
  | w :: ws =>
      share ← true_div w total_weight;
      rest ← hours_per_topic_of ws total_weight total_hours;
      Done ((share * total_hours)%Q :: rest)
  end.

(** Line 128: [{day: [] for day in range(1, days_until_exam + 1)}]. *)
Definition empty_schedule (days_until_exam : Z) : schedule_t :=
  list_to_map ((fun day => (day, [])) <$> seqZ 1 days_until_exam).

(** Line 138: [sum(h for _, h in schedule[day])]. *)
Definition day_load_of (items : list entry) : Q := sum_float (map snd items).

(** Lines 134-140: the body of the [while] loop, on the three variables it
    updates: [remaining], [day] and [schedule]. *)
Definition while_body (hours_per_day : Q) (topic : string)
    (remaining : Q) (day : Z) (schedule : schedule_t)
    : outcome (Q * Z * schedule_t) :=
  let chunk := py_min remaining (hours_per_day / 2)%Q in
  match schedule !! day with
  | None => Raised KeyError
  | Some items =>
      let items := (items ++ [(topic, round1 chunk)])%list in
      let schedule := <[day := items]> schedule in
      let remaining := (remaining - chunk)%Q in
      let day_load := day_load_of items in
      let day :=
        if Qle_bool (hours_per_day * (9 # 10))%Q day_load
        then (day + 1)%Z else day in
      Done (remaining, day, schedule)
  end.

(** Line 132: [while remaining > 0 and day <= days_until_exam]. *)
Definition while_test (days_until_exam : Z) (remaining : Q) (day : Z) : bool :=
  Qlt_bool 0%Q remaining && (day <=? days_until_exam)%Z.

(** Lines 132-140: the [while] loop for one topic.  It returns the final
    values of [remaining], [day] and [schedule]. *)
Fixpoint while_remaining (fuel : nat) (days_until_exam : Z) (hours_per_day : Q)
    (topic : string) (remaining : Q) (day : Z) (schedule : schedule_t)
    : outcome (Q * Z * schedule_t) :=
  if while_test days_until_exam remaining day then
    match fuel with
    | O => OutOfFuel
    | S fuel' =>
        '(remaining, day, schedule) ←
          while_body hours_per_day topic remaining day schedule;
        while_remaining fuel' days_until_exam hours_per_day
          topic remaining day schedule
    end
  else Done (remaining, day, schedule).

(** Lines 130-140: [for topic, hours in zip(topics, hours_per_topic)]. *)
Fixpoint for_topics (fuel : nat) (days_until_exam : Z) (hours_per_day : Q)
    (pairs : list (string * Q)) (day : Z) (schedule : schedule_t)
    : outcome (Z * schedule_t) :=
  match pairs with
  | [] => Done (day, schedule)
  | (topic, hours) :: rest =>
      '(_, day, schedule) ←
        while_remaining fuel days_until_exam hours_per_day
          topic hours day schedule;
      for_topics fuel days_until_exam hours_per_day rest day schedule
  end.

(** Lines 117-140: from the topics of the module to the filled schedule. *)
Definition fill_schedule (fuel : nat) (topics : list string)
    (days_until_exam : Z) (hours_per_day : Q) (weak_topics : string)
    : outcome schedule_t :=
  let weak_list := weak_list_of weak_topics in
  let weights := weights_of weak_list topics in
  let total_weight := sum_int weights in
  let total_hours := (inject_Z days_until_exam * hours_per_day)%Q in
  hours_per_topic ← hours_per_topic_of weights total_weight total_hours;
  let schedule := empty_schedule days_until_exam in
  let day := 1%Z in
  '(_, schedule) ←
    for_topics fuel days_until_exam hours_per_day
      (combine topics hours_per_topic) day schedule;
  Done schedule.

(** [schedule.items()]: the keys in insertion order, each with its list. *)
Definition schedule_items (days_until_exam : Z) (schedule : schedule_t)
    : list (Z * list entry) :=
  omap (fun d => (fun items => (d, items)) <$> schedule !! d)
       (seqZ 1 days_until_exam).

Definition unbuildable : string := "Could not build a useful schedule.".

Section Rendering.

(** [f"{x}"] for a [float]: Python's shortest round-trip decimal, which
    has no counterpart on [Q].  The text of the numbers plays no part in
    the properties below, so the formatter is a parameter. *)
Variable str_float : Q -> string.

(** Lines 148-154: the lines of the days that have entries. *)
Fixpoint day_lines (items_by_day : list (Z * list entry)) : list string :=
  match items_by_day with
  | [] => []
  | (d, items) :: rest =>
      if is_nil items then day_lines rest
      else
        (["Day " ++ str_int d ++ ":"]%string
         ++ map (fun '(topic, hrs) =>
                   "  - " ++ topic ++ ": " ++ str_float hrs ++ " hour(s)")%string
                items
         ++ [EmptyString]
         ++ day_lines rest)%list
  end.

(** Lines 142-154: the header and the lines of the days. *)
Definition schedule_lines (module_name : string) (days_until_exam : Z)
    (hours_per_day : Q) (weak_topics : string) (schedule : schedule_t)
    : list string :=
  let lines :=
    [ "Study schedule for '" ++ module_name ++ "'";
      "Days until exam: " ++ str_int days_until_exam
        ++ ", Hours per day: " ++ str_float hours_per_day;
      "Weak topics prioritized: "
        ++ (if truthy weak_topics then weak_topics else "None specified");
      EmptyString ]%string in
  (lines ++ day_lines (schedule_items days_until_exam schedule))%list.

(** Line 156: the text, or the message when no day has an entry. *)
Definition render_schedule (module_name : string) (days_until_exam : Z)
    (hours_per_day : Q) (weak_topics : string) (schedule : schedule_t)
    : string :=
  let lines :=
    schedule_lines module_name days_until_exam hours_per_day
      weak_topics schedule in
  if (4 <? List.length lines)%nat then join nl lines else unbuildable.

Definition build_study_schedule (fuel : nat) (module_name : string)
    (days_until_exam : Z) (hours_per_day : Q) (weak_topics : string)
    : outcome string :=
  match lookup_topics module_name with
  | None => Done (not_found module_name)
  | Some topics =>
      schedule ←
        fill_schedule fuel topics days_until_exam hours_per_day weak_topics;
      Done (render_schedule module_name days_until_exam hours_per_day
              weak_topics schedule)
  end.

End Rendering.

(** [f"{x}"] for a non-negative [float] that is a whole number of tenths
    (and below 1e16), such as [3.0], [1.5] or [0.6]: the integer part, a
    point and one digit.  It serves to print examples. *)
Definition str_tenths (x : Q) : string :=
  let n := Qfloor (x * 10) in
  str_int (n / 10) ++ "." ++ str_int (n mod 10).

(** ** Definitions that follow the wording of the specification *)

(** "each topic matching at least one focus substring (or all topics if
    focus set is empty)" *)
Definition matches_focus (focus_list : list string) (topic : string) : bool :=
  is_nil focus_list || any_in focus_list topic.

(** "... that has at least one registered task ..., in catalog order" *)
Definition spec_selected (focus_list topics : list string) : list string :=
  List.filter
    (fun t => matches_focus focus_list t && negb (is_nil (tasks_of t)))
    topics.


(** "hours(topic) = weight(topic) / sum(weights) * total_hours" *)
Definition spec_hours (weights : list Z) (total_hours : Q) : list Q :=
  map (fun w => (inject_Z w / inject_Z (sum_int weights) * total_hours)%Q)
      weights.

(** [zip(topics, hours_per_topic)] of a request. *)
Definition topic_hours (topics : list string) (days_until_exam : Z)
    (hours_per_day : Q) (weak_topics : string) : list (string * Q) :=
  combine topics
    (spec_hours (weights_of (weak_list_of weak_topics) topics)
                (inject_Z days_until_exam * hours_per_day)%Q).

(** Fuel for two turns of the [while] loop per day. *)
Definition enough_fuel (days_until_exam : Z) : nat :=
  Z.to_nat (2 * days_until_exam).

(** Every day of [1 .. days_until_exam] has its list in the dictionary. *)
Definition keys_ok (days_until_exam : Z) (schedule : schedule_t) : Prop :=
  forall d, (1 <= d <= days_until_exam)%Z -> is_Some (schedule !! d).

(** The dictionary has its keys and the day cursor is at least 1. *)
Definition cursor_ok (days_until_exam : Z) (day : Z) (schedule : schedule_t)
    : Prop :=
  keys_ok days_until_exam schedule /\ (1 <= day)%Z.

(** All [(topic, hours)] entries of a schedule, day after day. *)
Definition all_entries (days_until_exam : Z) (schedule : schedule_t)
    : list entry :=
  flat_map snd (schedule_items days_until_exam schedule).

(** "sum(hours over all entries in BuildSchedule output)" *)
Definition total_scheduled (days_until_exam : Z) (schedule : schedule_t) : Q :=
  sum_float (map snd (all_entries days_until_exam schedule)).

(** The number of entries of a schedule. *)
Definition entry_count (days_until_exam : Z) (schedule : schedule_t) : nat :=
  List.length (all_entries days_until_exam schedule).

(** The scheduled hours less the 0.05 by which rounding can raise each
    entry: a lower bound of the hours that were taken from the topics. *)
Definition unrounded_floor (days_until_exam : Z) (schedule : schedule_t) : Q :=
  (total_scheduled days_until_exam schedule
   - (1 # 20) * inject_Z (Z.of_nat (entry_count days_until_exam schedule)))%Q.

(** No entry is above the rounded half day. *)
Definition capped (days_until_exam : Z) (hours_per_day : Q)
    (schedule : schedule_t) : Prop :=
  forall e, In e (all_entries days_until_exam schedule) ->
            (snd e <= round1 (hours_per_day / 2))%Q.

(** Day 1 has at least one entry. *)
Definition day_one_filled (schedule : schedule_t) : Prop :=
  exists items, schedule !! 1%Z = Some items /\ items <> [].

(** The topics that received at least one entry. *)
Definition covers (days_until_exam : Z) (schedule : schedule_t)
    (topic : string) : Prop :=
  exists hours, In (topic, hours) (all_entries days_until_exam schedule).

(** ** Further invariants of the schedule *)

(** No day after the cursor has an entry yet. *)
Definition later_days_empty (day : Z) (schedule : schedule_t) : Prop :=
  forall d items, (day < d)%Z -> schedule !! d = Some items -> items = [].





(** Each topic repeated the given number of times, in order. *)
Definition repeat_topics (topics : list string) (counts : list nat)
    : list string :=
  flat_map (fun p => replicate (snd p) (fst p)) (combine topics counts).


(** ** The tool log (agent.py, lines 21-26) *)

(** A keyword argument of a tool call: a [str], an [int] or a [float]. *)
Inductive pyval : Type :=
| PStr (s : string)
| PInt (n : Z)
| PFloat (x : Q).

(** One entry of [TOOL_LOG]: [{"tool": name, "input": kwargs}]. *)
Record log_entry : Type := { tool : string; input : list (string * pyval) }.

(** [log_tool(name, **kwargs)]: append to the global list. *)
Definition log_tool (name : string) (kwargs : list (string * pyval))
    (TOOL_LOG : list log_entry) : list log_entry :=
  (TOOL_LOG ++ [{| tool := name; input := kwargs |}])%list.

(** ** The tools as the agent calls them (agent.py, lines 75-193)

    Each tool starts with its [log_tool] line and goes on with the body
    that was defined above; the global list is passed in and out. *)

Definition get_module_outline_tool (module_name : string)
    (TOOL_LOG : list log_entry) : list log_entry * string :=
  let TOOL_LOG :=
    log_tool "get_module_outline" [("module_name", PStr module_name)]
      TOOL_LOG in
  (TOOL_LOG, get_module_outline module_name).

Definition build_study_schedule_tool (str_float : Q -> string) (fuel : nat)
    (module_name : string) (days_until_exam : Z) (hours_per_day : Q)
    (weak_topics : string) (TOOL_LOG : list log_entry)
    : list log_entry * outcome string :=
  let TOOL_LOG :=
    log_tool "build_study_schedule"
      [ ("module_name", PStr module_name);
        ("days_until_exam", PInt days_until_exam);
        ("hours_per_day", PFloat hours_per_day);
        ("weak_topics", PStr weak_topics) ]
      TOOL_LOG in
  (TOOL_LOG,
   build_study_schedule str_float fuel module_name days_until_exam
     hours_per_day weak_topics).

Definition suggest_practice_tasks_tool (module_name focus_topics : string)
    (TOOL_LOG : list log_entry) : list log_entry * string :=
  let TOOL_LOG :=
    log_tool "suggest_practice_tasks"
      [ ("module_name", PStr module_name);
        ("focus_topics", PStr focus_topics) ]
      TOOL_LOG in
  (TOOL_LOG, suggest_practice_tasks module_name focus_topics).

(** ** The agent and its runner (agent.py, lines 199-261) *)

(** A call of the agent to one of its three tools (line 216). *)
Inductive tool_call : Type :=
| CallOutline (module_name : string)
| CallSchedule (module_name : string) (days_until_exam : Z)
    (hours_per_day : Q) (weak_topics : string)
| CallPractice (module_name focus_topics : string).

(** What [agent.invoke] does is decided by the language model and the
    agent library, outside the repository.  A run is taken as it comes:
    it ends with the content of its last message, it raises an exception
    with a message, or it calls a tool and goes on from the text that the
    tool returned. *)
Inductive agent_run : Type :=
| Final (content : string)
| Throws (message : string)
| Calls (c : tool_call) (next : string -> agent_run).

(** The agent object: what it does with a query. *)
Abbreviation agent_t := (string -> agent_run)%type.

(** How a call into the libraries ends: with a value, with an exception
    and its [str(e)], or not at all. *)
Inductive run_result (A : Type) : Type :=
| Returns (a : A)
| Raises (message : string)
| NoReturn.

Arguments Returns {A} a.
Arguments Raises {A} message.
Arguments NoReturn {A}.

(** [" → "], the arrow U+2192 in UTF-8 between two spaces. *)
Definition arrow : string :=
  " " ++ String (ascii_of_nat 226)
           (String (ascii_of_nat 134) (String (ascii_of_nat 146) " ")).

(** ["❌ Error: "], the cross mark U+274C in UTF-8. *)
Definition error_prefix : string :=
  String (ascii_of_nat 226)
    (String (ascii_of_nat 157) (String (ascii_of_nat 140) " Error: ")).

(** What [log_tool] records for a call. *)
Definition entry_of_call (c : tool_call) : log_entry :=
  match c with
  | CallOutline module_name =>
      {| tool := "get_module_outline";
         input := [("module_name", PStr module_name)] |}
  | CallSchedule module_name days_until_exam hours_per_day weak_topics =>
      {| tool := "build_study_schedule";
         input := [ ("module_name", PStr module_name);
                    ("days_until_exam", PInt days_until_exam);
                    ("hours_per_day", PFloat hours_per_day);
                    ("weak_topics", PStr weak_topics) ] |}
  | CallPractice module_name focus_topics =>
      {| tool := "suggest_practice_tasks";
         input := [ ("module_name", PStr module_name);
                    ("focus_topics", PStr focus_topics) ] |}
  end.

Section Agent.

(** [f"{x}"] for a [float], as before. *)
Variable str_float : Q -> string.

(** [f"{entry['input']}"]: Python's text of a [dict], a parameter like the
    text of a [float]. *)
Variable repr_input : list (string * pyval) -> string.

(** [ChatGroq(...)] and [create_agent(...)] (lines 211-235): the agent
    that the libraries build from the key, or the exception they raise. *)
Variable new_agent : string -> run_result agent_t.

(** The agent library calling a tool.  The [while] loop of the schedule
    builder gets the fuel of [enough_fuel]. *)
Definition call_tool (c : tool_call) (TOOL_LOG : list log_entry)
    : list log_entry * outcome string :=
  match c with
  | CallOutline module_name =>
      let '(TOOL_LOG, text) := get_module_outline_tool module_name TOOL_LOG in
      (TOOL_LOG, Done text)
  | CallSchedule module_name days_until_exam hours_per_day weak_topics =>
      build_study_schedule_tool str_float (enough_fuel days_until_exam)
        module_name days_until_exam hours_per_day weak_topics TOOL_LOG
  | CallPractice module_name focus_topics =>
      let '(TOOL_LOG, text) :=
        suggest_practice_tasks_tool module_name focus_topics TOOL_LOG in
      (TOOL_LOG, Done text)
  end.

(** [agent.invoke(...)]: the run, with its tool calls executed. *)
Fixpoint invoke (run : agent_run) (TOOL_LOG : list log_entry)
    : list log_entry * run_result string :=
  match run with
  | Final content => (TOOL_LOG, Returns content)
  | Throws message => (TOOL_LOG, Raises message)
  | Calls c next =>
      let '(TOOL_LOG, result) := call_tool c TOOL_LOG in
      match result with
      | Done text => invoke (next text) TOOL_LOG
      | _ => (TOOL_LOG, NoReturn)
      end
  end.

(** Lines 253-259: the text of the log. *)
Definition tool_log_text_of (TOOL_LOG : list log_entry) : string :=
  if is_nil TOOL_LOG then "No tools were called."
  else
    join nl
      ("Tool call sequence:"
         :: imap (fun i entry =>
                    str_int (Z.of_nat (S i)) ++ ". " ++ tool entry
                      ++ arrow ++ repr_input (input entry))
                 TOOL_LOG).

(** [run_study_coach(agent, query)] (lines 239-261). *)
Definition run_study_coach (agent : agent_t) (query : string)
    (TOOL_LOG : list log_entry)
    : list log_entry * run_result (string * string) :=
  let TOOL_LOG := @nil log_entry in
  let '(TOOL_LOG, result) := invoke (agent query) TOOL_LOG in
  match result with
  | Returns final_answer =>
      (TOOL_LOG, Returns (final_answer, tool_log_text_of TOOL_LOG))
  | Raises message => (TOOL_LOG, Raises message)
  | NoReturn => (TOOL_LOG, NoReturn)
  end.

(** [bool(os.getenv("GROQ_API_KEY"))]: set, and not to the empty string. *)
Definition key_is_set (GROQ_API_KEY : option string) : bool :=
  match GROQ_API_KEY with
  | Some key => truthy key
  | None => false
  end.

(** [build_agent()] (lines 199-236). *)
Definition build_agent (GROQ_API_KEY : option string) : run_result agent_t :=
  if negb (key_is_set GROQ_API_KEY) then
    Raises ("GROQ_API_KEY environment variable is not set. "
              ++ "Set it before using the agent.")
  else new_agent (default EmptyString GROQ_API_KEY).

(** ** The user interface (ui.py, lines 16-45) *)

(** The globals the interface works on: [agent] of ui.py, the environment
    variable, and [TOOL_LOG] of agent.py. *)
Record ui_state : Type :=
  { agent : option agent_t;
    GROQ_API_KEY : option string;
    TOOL_LOG : list log_entry }.

(** [load_agent()] (ui.py, lines 21-33). *)
Definition load_agent (st : ui_state) : ui_state * run_result agent_t :=
  match agent st with
  | None =>
      if negb (key_is_set (GROQ_API_KEY st)) then
        (st,
         Raises ("GROQ_API_KEY environment variable is not set." ++ nl
                   ++ "Please set it before running the UI:" ++ nl
                   ++ "   export GROQ_API_KEY='your-key-here'"))
      else
        match build_agent (GROQ_API_KEY st) with
        | Returns a =>
            ({| agent := Some a;
                GROQ_API_KEY := GROQ_API_KEY st;
                TOOL_LOG := TOOL_LOG st |},
             Returns a)
        | Raises message => (st, Raises message)
        | NoReturn => (st, NoReturn)
        end
  | Some a => (st, Returns a)
  end.

(** [study_coach_interface(query)] (ui.py, lines 39-45): the [try] block,
    and the [except] clause that turns any exception into a text. *)
Definition study_coach_interface (query : string) (st : ui_state)
    : ui_state * run_result (string * string) :=
  match load_agent st with
  | (st, Returns _) =>
      match agent st with
      | None =>
          ({| agent := None;
              GROQ_API_KEY := GROQ_API_KEY st;
              TOOL_LOG := [] |},
           Returns (error_prefix
                      ++ "'NoneType' object has no attribute 'invoke'",
                    EmptyString))
      | Some a =>
          let '(log, result) := run_study_coach a query (TOOL_LOG st) in
          let st :=
            {| agent := agent st;
               GROQ_API_KEY := GROQ_API_KEY st;
               TOOL_LOG := log |} in
          match result with
          | Returns (final_answer, tool_log) =>
              (st, Returns (final_answer, tool_log))
          | Raises message =>
              (st, Returns (error_prefix ++ message, EmptyString))
          | NoReturn => (st, NoReturn)
          end
      end
  | (st, Raises message) =>
      (st, Returns (error_prefix ++ message, EmptyString))
  | (st, NoReturn) => (st, NoReturn)
  end.

End Agent.

(** The tool calls of a run, in order. *)
Fixpoint calls_made (str_float : Q -> string) (run : agent_run)
    : list tool_call :=
  match run with
  | Final _ => []
  | Throws _ => []
  | Calls c next =>
      c :: match snd (call_tool str_float c []) with
           | Done text => calls_made str_float (next text)
           | _ => []
           end
  end.

(** Two runs of the [while] loop that end alike: the same [day] and
    [schedule], and the same [remaining] as a number. *)
Definition same_run (a b : outcome (Q * Z * schedule_t)) : Prop :=
  match a, b with
  | Done (r1, d1, s1), Done (r2, d2, s2) => (r1 == r2)%Q /\ d1 = d2 /\ s1 = s2
  | Raised e1, Raised e2 => e1 = e2
  | OutOfFuel, OutOfFuel => True
  | _, _ => False
  end.

(** * Properties *)

(** ** The string methods *)

Section Strings.

Lemma prefix_iff (w t : string) :
  String.prefix w t = true <-> exists post, t = (w ++ post)%string.
Proof.
  revert t. induction w as [|c w IH]; intros [|c' t]; simpl.
  - split; [by exists EmptyString | done].
  - split; [by exists (String c' t) | done].
  - split; [done | by intros [? ?]].
  - destruct (ascii_dec c c') as [->|Hne].
    + rewrite IH.
      split; intros [post Hp]; exists post; [by rewrite Hp | by injection Hp].
    + split; [done|]. intros [post [= ? ?]]. done.
Qed.

(** [w in t] holds exactly when [t] is some text, then [w], then some
    text. *)
Lemma contains_iff (w t : string) :
  contains w t = true
  <-> exists pre post, t = (pre ++ w ++ post)%string.
Proof.
  induction t as [|c t IH]; cbn [contains]; rewrite orb_true_iff, prefix_iff.
  - split.
    + intros [[post Hp]|?]; [|done]. by exists EmptyString, post.
    + intros ([|? ?] & post & Hp); [left; by exists post | done].
  - rewrite IH. split.
    + intros [[post Hp]|(pre & post & ->)].
      * by exists EmptyString, post.
      * by exists (String c pre), post.
    + intros ([|c' pre] & post & Hp).
      * left. by exists post.
      * right. injection Hp as -> ->. by exists pre, post.
Qed.

(** Lower-casing twice is lower-casing once: no capital is left. *)
Lemma lower_idempotent (s : string) : lower (lower s) = lower s.
Proof.
  induction s as [|c s IH]; simpl; [done|]. rewrite IH. f_equal.
  unfold lower_char, is_upper.
  destruct c as [[] [] [] [] [] [] [] []]; reflexivity.
Qed.

(** The entries of a comma-separated argument: the pieces between commas
    that are not blank, trimmed and lower-cased. *)
Lemma comma_list_iff (text w : string) :
  In w (comma_list text)
  <-> exists piece,
        In piece (split "," text)
        /\ strip piece <> EmptyString
        /\ w = lower (strip piece).
Proof.
  unfold comma_list. rewrite in_map_iff.
  split; intros (piece & H1 & H2).
  - apply filter_In in H2 as [Hin Hne]. exists piece.
    repeat split; [done| |done]. by destruct (strip piece).
  - destruct H2 as [Hne ->]. exists piece. split; [done|].
    apply filter_In. split; [done|]. by destruct (strip piece).
Qed.

End Strings.

(** ** The catalog and the practice-task lookup *)

Section PracticeTasks.

Lemma topic_block_cons topic tasks :
  exists line rest, topic_block topic tasks = line :: rest.
Proof. unfold topic_block. simpl. eauto. Qed.

(** The loop only appends, and what it appends is the block of every
    selected topic, in the order of the topics. *)
Lemma practice_loop_spec focus_list topics lines :
  practice_loop focus_list topics lines
  = (lines ++ flat_map (fun t => topic_block t (tasks_of t))
                       (spec_selected focus_list topics))%list.
Proof.
  revert lines.
  induction topics as [|topic rest IH]; intros lines; simpl.
  - by rewrite app_nil_r.
  - unfold matches_focus.
    destruct (is_nil focus_list), (any_in focus_list topic),
      (is_nil (tasks_of topic)); simpl; rewrite IH; try done;
      by rewrite <- app_assoc.
Qed.

Lemma flat_blocks_nil selected :
  flat_map (fun t => topic_block t (tasks_of t)) selected = [] ->
  selected = [].
Proof.
  destruct selected as [|t rest]; [done|]. cbn [flat_map].
  destruct (topic_block_cons t (tasks_of t)) as (line & more & ->).
  discriminate.
Qed.




End PracticeTasks.



(** C8: [suggest_practice_tasks("generative ai", "RAG")] prints the topic
    "RAG" with its two registered tasks and nothing else; a topic without
    registered tasks, such as "OpenAI & Groq APIs", is never printed. *)
Theorem practice_tasks_rag :
  suggest_practice_tasks "generative ai" "RAG"
  = join nl
      [ "Practice tasks:";
        "* RAG";
        "  - Implement a basic RAG pipeline using a single PDF.";
        "  - Experiment with different chunk sizes and compare answer quality.";
        EmptyString ]
  /\ spec_selected (comma_list "RAG")
       (default [] (SYLLABUS !! "generative ai")) = ["RAG"]
  /\ List.length (tasks_of "RAG") = 2%nat
  /\ tasks_of "OpenAI & Groq APIs" = []
  /\ (forall focus_list topics,
        ~ In "OpenAI & Groq APIs" (spec_selected focus_list topics)).
Proof.
  repeat split; try (vm_compute; reflexivity).
  intros focus_list topics. unfold spec_selected.
  rewrite filter_In. intros [_ H].
  apply andb_true_iff in H as [_ H].
  vm_compute in H. discriminate.
Qed.

(** ** Unknown modules *)

Lemma lookup_topics_unknown module_name :
  SYLLABUS !! strip (lower module_name) = None ->
  lookup_topics module_name = None.
Proof. intros H. unfold lookup_topics. by rewrite H. Qed.

(** C6: when the lower-cased, trimmed module name is not a key of the
    catalog, each of the three tools returns the not-found message built
    from the module name as it was given.  [build_study_schedule] returns
    it whatever the other arguments are and without a single step of its
    loop (any fuel, even none), so nothing is weighted, allocated or
    scheduled. *)
Theorem unknown_module_not_found (str_float : Q -> string)
    (module_name : string) :
  SYLLABUS !! strip (lower module_name) = None ->
  get_module_outline module_name = not_found module_name
  /\ (forall fuel days_until_exam hours_per_day weak_topics,
        build_study_schedule str_float fuel module_name
          days_until_exam hours_per_day weak_topics
        = Done (not_found module_name))
  /\ (forall focus_topics,
        suggest_practice_tasks module_name focus_topics
        = not_found module_name).
Proof.
  intros H%lookup_topics_unknown.
  unfold get_module_outline, build_study_schedule, suggest_practice_tasks.
  rewrite H. auto.
Qed.

Lemma unknown_module_not_found_witness :
  get_module_outline "nonexistent module"
  = "No module named 'nonexistent module' found."
  /\ build_study_schedule (fun _ => EmptyString) 0 "nonexistent module"
       5 3 "rag"
     = Done "No module named 'nonexistent module' found."
  /\ suggest_practice_tasks "nonexistent module" "rag"
     = "No module named 'nonexistent module' found.".
Proof.
  assert (H : SYLLABUS !! strip (lower "nonexistent module") = None)
    by (vm_compute; reflexivity).
  destruct (unknown_module_not_found (fun _ => EmptyString) _ H)
    as (H1 & H2 & H3).
  rewrite H1, H2, H3. auto.
Defined.

(** ** Arithmetic of the hours *)

Section Numbers.

Local Open Scope Q_scope.

Lemma Qlt_bool_true a b : Qlt_bool a b = true <-> a < b.
Proof.
  unfold Qlt_bool. rewrite negb_true_iff, <- not_true_iff_false.
  rewrite Qle_bool_iff. split; intros H; lra.
Qed.

Lemma Qlt_bool_false a b : Qlt_bool a b = false <-> b <= a.
Proof.
  unfold Qlt_bool. rewrite negb_false_iff. apply Qle_bool_iff.
Qed.

Lemma py_min_cases a b :
  (py_min a b = a /\ a <= b) \/ (py_min a b = b /\ b < a).
Proof.
  unfold py_min. destruct (Qlt_bool b a) eqn:H.
  - right. by apply Qlt_bool_true in H.
  - left. by apply Qlt_bool_false in H.
Qed.

Lemma py_min_le_l a b : py_min a b <= a.
Proof. destruct (py_min_cases a b) as [[-> ?]|[-> ?]]; lra. Qed.

Lemma py_min_le_r a b : py_min a b <= b.
Proof. destruct (py_min_cases a b) as [[-> ?]|[-> ?]]; lra. Qed.


(** Rounding to the nearest integer moves a number by at most a half. *)
Lemma round_half_even_near x :
  inject_Z (round_half_even x) <= x + (1 # 2)
  /\ x - (1 # 2) <= inject_Z (round_half_even x).
Proof.
  unfold round_half_even.
  pose proof (Qfloor_le x) as Hlo. pose proof (Qlt_floor x) as Hhi.
  rewrite inject_Z_plus in Hhi. change (inject_Z 1) with 1 in Hhi.
  destruct (Qcompare_spec (x - inject_Z (Qfloor x)) (1 # 2)) as [He|Hl|Hg].
  - destruct (Z.even (Qfloor x)).
    + lra.
    + rewrite inject_Z_plus. change (inject_Z 1) with 1. lra.
  - lra.
  - rewrite inject_Z_plus. change (inject_Z 1) with 1. lra.
Qed.

(** The rounded value is the floor or the floor plus one. *)
Lemma round_half_even_floor x :
  (Qfloor x <= round_half_even x <= Qfloor x + 1)%Z.
Proof.
  unfold round_half_even.
  destruct (Qcompare (x - inject_Z (Qfloor x)) (1 # 2));
    [destruct (Z.even (Qfloor x))| |]; lia.
Qed.

Lemma round_half_even_mono x y :
  x <= y -> (round_half_even x <= round_half_even y)%Z.
Proof.
  intros Hxy.
  pose proof (Qfloor_resp_le x y Hxy) as Hf.
  pose proof (round_half_even_floor x) as Hx.
  pose proof (round_half_even_floor y) as Hy.
  destruct (Z.eq_dec (Qfloor x) (Qfloor y)) as [Heq|Hne]; [|lia].
  unfold round_half_even in *. rewrite <- Heq in *.
  destruct (Qcompare_spec (x - inject_Z (Qfloor x)) (1 # 2)) as [He|Hl|Hg];
    destruct (Qcompare_spec (y - inject_Z (Qfloor x)) (1 # 2))
      as [He'|Hl'|Hg'];
    try destruct (Z.even (Qfloor x)); try lia; lra.
Qed.

Lemma tenth_of n : n # 10 == inject_Z n * (1 # 10).
Proof. unfold Qeq, Qmult, inject_Z. cbn [Qnum Qden]. lia. Qed.

(** [round(x, 1)] moves [x] by at most 0.05 ... *)
Lemma round1_near x : round1 x <= x + (1 # 20) /\ x - (1 # 20) <= round1 x.
Proof.
  unfold round1. rewrite tenth_of.
  destruct (round_half_even_near (x * 10)) as [Hhi Hlo].
  split; lra.
Qed.

(** ... and is monotone. *)
Lemma round1_mono x y : x <= y -> round1 x <= round1 y.
Proof.
  intros Hxy. unfold round1.
  rewrite (tenth_of (round_half_even (x * 10))).
  rewrite (tenth_of (round_half_even (y * 10))).
  assert (H : (round_half_even (x * 10) <= round_half_even (y * 10))%Z)
    by (apply round_half_even_mono; lra).
  rewrite Zle_Qle in H. lra.
Qed.


End Numbers.

(** ** The schedule dictionary *)

Section ScheduleDict.

Local Open Scope Q_scope.

Implicit Types (schedule : schedule_t) (items : list entry) (day d : Z).

Lemma empty_schedule_lookup days_until_exam d :
  (1 <= d <= days_until_exam)%Z ->
  empty_schedule days_until_exam !! d = Some [].
Proof.
  intros Hd. unfold empty_schedule.
  apply elem_of_list_to_map_1.
  - replace (((fun day : Z => (day, @nil entry)) <$> seqZ 1 days_until_exam).*1)
      with (seqZ 1 days_until_exam); [apply NoDup_seqZ|].
    induction (seqZ 1 days_until_exam) as [|k keys IH];
      [done | by simpl; f_equal].
  - apply list_elem_of_fmap. exists d. split; [done|].
    apply elem_of_seqZ. lia.
Qed.

Lemma empty_schedule_keys_ok days_until_exam :
  keys_ok days_until_exam (empty_schedule days_until_exam).
Proof. intros d Hd. rewrite empty_schedule_lookup; eauto. Qed.

Lemma keys_ok_insert days_until_exam schedule day items :
  keys_ok days_until_exam schedule ->
  keys_ok days_until_exam (<[day := items]> schedule).
Proof.
  intros Hk d Hd. apply lookup_insert_is_Some.
  destruct (decide (day = d)); auto.
Qed.

(** Reading the lists of keys other than the one that was assigned. *)
Lemma items_insert_other (keys : list Z) schedule day items' :
  day ∉ keys ->
  omap (fun d => (fun its => (d, its)) <$> <[day := items']> schedule !! d)
       keys
  = omap (fun d => (fun its => (d, its)) <$> schedule !! d) keys.
Proof.
  induction keys as [|k keys IH]; intros Hk; [done|].
  apply not_elem_of_cons in Hk as [Hne Hk].
  csimpl. rewrite lookup_insert_ne by done. by rewrite IH.
Qed.

(** [schedule.items()] over any list of distinct keys: replacing the list
    of one key replaces one pair and leaves the others in place. *)
Lemma items_insert (keys : list Z) schedule day items items' :
  NoDup keys -> day ∈ keys -> schedule !! day = Some items ->
  exists before after,
    omap (fun d => (fun its => (d, its)) <$> schedule !! d) keys
    = (before ++ (day, items) :: after)%list
    /\ omap (fun d => (fun its => (d, its))
                        <$> <[day := items']> schedule !! d) keys
       = (before ++ (day, items') :: after)%list.
Proof.
  intros Hnd Hin Hday.
  induction keys as [|k keys IH]; [by apply elem_of_nil in Hin|].
  apply NoDup_cons in Hnd as [Hk Hnd].
  destruct (decide (day = k)) as [->|Hne].
  - exists [], (omap (fun d => (fun its => (d, its)) <$> schedule !! d) keys).
    csimpl. rewrite Hday, lookup_insert_eq. csimpl. split; [done|].
    by rewrite items_insert_other.
  - apply elem_of_cons in Hin as [?|Hin]; [done|].
    destruct (IH Hnd Hin) as (before & after & H1 & H2).
    csimpl. rewrite lookup_insert_ne by done. rewrite H1, H2.
    destruct (schedule !! k) as [its|]; csimpl.
    + by exists ((k, its) :: before), after.
    + by exists before, after.
Qed.

Lemma schedule_items_insert days_until_exam schedule day items items' :
  (1 <= day <= days_until_exam)%Z -> schedule !! day = Some items ->
  exists before after,
    schedule_items days_until_exam schedule
    = (before ++ (day, items) :: after)%list
    /\ schedule_items days_until_exam (<[day := items']> schedule)
       = (before ++ (day, items') :: after)%list.
Proof.
  intros Hd Hday. apply items_insert; [apply NoDup_seqZ| |done].
  apply elem_of_seqZ. lia.
Qed.

(** Appending one entry to the list of a day of the range adds exactly
    that entry to the entries of the schedule. *)
Lemma all_entries_append days_until_exam schedule day items e :
  (1 <= day <= days_until_exam)%Z -> schedule !! day = Some items ->
  exists before after,
    all_entries days_until_exam schedule = (before ++ after)%list
    /\ all_entries days_until_exam (<[day := (items ++ [e])%list]> schedule)
       = (before ++ e :: after)%list.
Proof.
  intros Hd Hday.
  destruct (schedule_items_insert days_until_exam schedule day items
              (items ++ [e])%list Hd Hday) as (b & a & H1 & H2).
  unfold all_entries. rewrite H1, H2, !flat_map_app. simpl.
  exists (flat_map snd b ++ items)%list, (flat_map snd a).
  by rewrite <- !app_assoc.
Qed.

Lemma sum_float_from (xs : list Q) (a : Q) :
  fold_left Qplus xs a == a + sum_float xs.
Proof.
  unfold sum_float. revert a.
  induction xs as [|x xs IH]; intros a; simpl; [lra|].
  rewrite (IH (a + x)), (IH (0 + x)). lra.
Qed.

Lemma sum_float_cons x xs : sum_float (x :: xs) == x + sum_float xs.
Proof.
  unfold sum_float at 1. simpl. rewrite sum_float_from. lra.
Qed.

Lemma sum_float_app (xs ys : list Q) :
  sum_float (xs ++ ys) == sum_float xs + sum_float ys.
Proof.
  induction xs as [|x xs IH]; simpl.
  - unfold sum_float at 2. simpl. lra.
  - rewrite !sum_float_cons, IH. lra.
Qed.

Lemma total_scheduled_append days_until_exam schedule day items e :
  (1 <= day <= days_until_exam)%Z -> schedule !! day = Some items ->
  total_scheduled days_until_exam (<[day := (items ++ [e])%list]> schedule)
  == total_scheduled days_until_exam schedule + snd e.
Proof.
  intros Hd Hday.
  destruct (all_entries_append days_until_exam schedule day items e Hd Hday)
    as (b & a & H1 & H2).
  unfold total_scheduled. rewrite H1, H2, !map_app. simpl.
  rewrite !sum_float_app, sum_float_cons. lra.
Qed.

Lemma entries_count_append days_until_exam schedule day items e :
  (1 <= day <= days_until_exam)%Z -> schedule !! day = Some items ->
  List.length
    (all_entries days_until_exam (<[day := (items ++ [e])%list]> schedule))
  = S (List.length (all_entries days_until_exam schedule)).
Proof.
  intros Hd Hday.
  destruct (all_entries_append days_until_exam schedule day items e Hd Hday)
    as (b & a & -> & ->).
  rewrite !length_app. simpl. lia.
Qed.

Lemma in_entries_append days_until_exam schedule day items e e0 :
  (1 <= day <= days_until_exam)%Z -> schedule !! day = Some items ->
  In e0 (all_entries days_until_exam
           (<[day := (items ++ [e])%list]> schedule))
  <-> e0 = e \/ In e0 (all_entries days_until_exam schedule).
Proof.
  intros Hd Hday.
  destruct (all_entries_append days_until_exam schedule day items e Hd Hday)
    as (b & a & -> & ->).
  rewrite !in_app_iff. simpl. intuition congruence.
Qed.

Lemma all_entries_empty days_until_exam :
  all_entries days_until_exam (empty_schedule days_until_exam) = [].
Proof.
  unfold all_entries, schedule_items.
  assert (H : forall keys,
             (forall d, d ∈ keys -> (1 <= d <= days_until_exam)%Z) ->
             flat_map snd
               (omap (fun d => (fun its => (d, its))
                        <$> empty_schedule days_until_exam !! d) keys) = []).
  { induction keys as [|k keys IH]; intros Hk; [done|].
    simpl. rewrite empty_schedule_lookup by (apply Hk; left).
    simpl. apply IH. intros d Hd. apply Hk. by right. }
  apply H. intros d Hd%elem_of_seqZ. lia.
Qed.

End ScheduleDict.

(** ** The two loops of [build_study_schedule] *)

Section Packing.

Local Open Scope Q_scope.

Variables (days_until_exam : Z) (hours_per_day : Q).

Implicit Types (schedule : schedule_t) (remaining : Q) (day : Z).

Lemma while_test_true remaining day :
  while_test days_until_exam remaining day = true
  <-> 0 < remaining /\ (day <= days_until_exam)%Z.
Proof.
  unfold while_test.
  by rewrite andb_true_iff, Qlt_bool_true, Z.leb_le.
Qed.

Lemma while_test_false remaining day :
  while_test days_until_exam remaining day = false
  <-> remaining <= 0 \/ (days_until_exam < day)%Z.
Proof.
  unfold while_test.
  by rewrite andb_false_iff, Qlt_bool_false, Z.leb_gt.
Qed.

(** The loop is not entered when its test fails, whatever the fuel. *)
Lemma while_remaining_exit fuel topic remaining day schedule :
  while_test days_until_exam remaining day = false ->
  while_remaining fuel days_until_exam hours_per_day topic
    remaining day schedule
  = Done (remaining, day, schedule).
Proof. intros Ht. destruct fuel; simpl; by rewrite Ht. Qed.

Lemma while_remaining_turn fuel topic remaining day schedule :
  while_test days_until_exam remaining day = true ->
  while_remaining (S fuel) days_until_exam hours_per_day topic
    remaining day schedule
  = '(remaining, day, schedule) ←
      while_body hours_per_day topic remaining day schedule;
    while_remaining fuel days_until_exam hours_per_day topic
      remaining day schedule.
Proof. intros Ht. simpl. by rewrite Ht. Qed.

(** What one turn of the body does when the day has its list. *)
Lemma while_body_Done topic remaining day schedule items :
  schedule !! day = Some items ->
  while_body hours_per_day topic remaining day schedule
  = Done
      (remaining - py_min remaining (hours_per_day / 2),
       if Qle_bool (hours_per_day * (9 # 10))
            (day_load_of
               (items ++ [(topic,
                           round1 (py_min remaining (hours_per_day / 2)))]))
       then (day + 1)%Z else day,
       <[day := (items ++ [(topic,
                            round1 (py_min remaining (hours_per_day / 2)))])
                %list]> schedule).
Proof. intros H. unfold while_body. by rewrite H. Qed.

Lemma while_body_inv topic remaining day schedule r' d' s' :
  while_body hours_per_day topic remaining day schedule = Done (r', d', s') ->
  exists items,
    schedule !! day = Some items
    /\ r' = remaining - py_min remaining (hours_per_day / 2)
    /\ (d' = day \/ d' = (day + 1)%Z)
    /\ s' = <[day := (items ++ [(topic,
                                 round1 (py_min remaining
                                           (hours_per_day / 2)))])%list]>
              schedule.
Proof.
  destruct (schedule !! day) as [items|] eqn:Hday.
  - rewrite (while_body_Done _ _ _ _ items Hday).
    intros [= <- <- <-]. exists items.
    repeat split; try done.
    destruct (Qle_bool _ _); auto.
  - unfold while_body. by rewrite Hday.
Qed.

(** Invariant rule for the [while] loop: a property of the three loop
    variables that every turn of the body preserves holds when the loop
    returns, and the loop test is then false. *)
Lemma while_remaining_inv (P : Q -> Z -> schedule_t -> Prop) topic :
  (forall remaining day schedule r' d' s',
      P remaining day schedule ->
      0 < remaining -> (day <= days_until_exam)%Z ->
      while_body hours_per_day topic remaining day schedule
      = Done (r', d', s') ->
      P r' d' s') ->
  forall fuel remaining day schedule r' d' s',
    P remaining day schedule ->
    while_remaining fuel days_until_exam hours_per_day topic
      remaining day schedule = Done (r', d', s') ->
    P r' d' s' /\ while_test days_until_exam r' d' = false.
Proof.
  intros Hstep.
  induction fuel as [|fuel IH]; intros remaining day schedule r' d' s' HP;
    destruct (while_test days_until_exam remaining day) eqn:Ht.
  - simpl. by rewrite Ht.
  - rewrite while_remaining_exit by done. by intros [= <- <- <-].
  - rewrite while_remaining_turn by done.
    apply while_test_true in Ht as [Hr Hd].
    destruct (while_body hours_per_day topic remaining day schedule)
      as [[[r1 d1] s1]| |] eqn:Hb; try done.
    simpl. apply IH. by eapply Hstep.
  - rewrite while_remaining_exit by done. by intros [= <- <- <-].
Qed.

(** Invariant rule for the [for] loop, for properties of [day] and
    [schedule]. *)
Lemma for_topics_inv (P : Z -> schedule_t -> Prop) :
  (forall topic remaining day schedule r' d' s',
      P day schedule ->
      0 < remaining -> (day <= days_until_exam)%Z ->
      while_body hours_per_day topic remaining day schedule
      = Done (r', d', s') ->
      P d' s') ->
  forall fuel pairs day schedule d' s',
    P day schedule ->
    for_topics fuel days_until_exam hours_per_day pairs day schedule
    = Done (d', s') ->
    P d' s'.
Proof.
  intros Hstep fuel.
  induction pairs as [|[topic hours] rest IH]; intros day schedule d' s' HP.
  - simpl. by intros [= <- <-].
  - simpl.
    destruct (while_remaining fuel days_until_exam hours_per_day topic
                hours day schedule) as [[[r1 d1] s1]| |] eqn:Hw; try done.
    simpl. apply IH.
    apply (while_remaining_inv (fun _ d s => P d s) topic) in Hw as [? _];
      eauto.
Qed.

(** More fuel does not change a result. *)
Lemma while_remaining_fuel topic fuel fuel' remaining day schedule st :
  while_remaining fuel days_until_exam hours_per_day topic
    remaining day schedule = Done st ->
  (fuel <= fuel')%nat ->
  while_remaining fuel' days_until_exam hours_per_day topic
    remaining day schedule = Done st.
Proof.
  revert fuel' remaining day schedule.
  induction fuel as [|fuel IH]; intros fuel' remaining day schedule;
    destruct (while_test days_until_exam remaining day) eqn:Ht.
  - simpl. by rewrite Ht.
  - rewrite !while_remaining_exit by done. auto.
  - intros Hrun Hle. destruct fuel' as [|fuel']; [lia|].
    rewrite while_remaining_turn in * by done.
    destruct (while_body hours_per_day topic remaining day schedule)
      as [[[r1 d1] s1]| |]; try done.
    simpl in *. apply IH; [done | lia].
  - rewrite !while_remaining_exit by done. auto.
Qed.

Lemma for_topics_fuel fuel fuel' pairs day schedule st :
  for_topics fuel days_until_exam hours_per_day pairs day schedule
  = Done st ->
  (fuel <= fuel')%nat ->
  for_topics fuel' days_until_exam hours_per_day pairs day schedule
  = Done st.
Proof.
  intros Hrun Hle. revert day schedule Hrun.
  induction pairs as [|[topic hours] rest IH]; intros day schedule;
    [done|].
  simpl.
  destruct (while_remaining fuel days_until_exam hours_per_day topic
              hours day schedule) as [[[r1 d1] s1]| |] eqn:Hw; try done.
  rewrite (while_remaining_fuel _ _ fuel' _ _ _ _ Hw Hle).
  simpl. apply IH.
Qed.


(** *** Keys and cursor *)

(** The dictionary keeps its keys and the cursor never goes below 1. *)
Lemma while_body_cursor_ok topic remaining day schedule r' d' s' :
  cursor_ok days_until_exam day schedule ->
  while_body hours_per_day topic remaining day schedule = Done (r', d', s') ->
  cursor_ok days_until_exam d' s' /\ (day <= d' <= day + 1)%Z.
Proof.
  intros [Hk Hd] (items & Hday & -> & Hd' & ->)%while_body_inv.
  split; [split|]; [by apply keys_ok_insert | lia | lia].
Qed.

Lemma while_remaining_cursor_ok fuel topic remaining day schedule r' d' s' :
  cursor_ok days_until_exam day schedule ->
  while_remaining fuel days_until_exam hours_per_day topic
    remaining day schedule = Done (r', d', s') ->
  cursor_ok days_until_exam d' s'.
Proof.
  intros Hc Hrun.
  apply (while_remaining_inv (fun _ d s => cursor_ok days_until_exam d s) topic)
    in Hrun as [? _]; [done| |done].
  intros ? ? ? ? ? ? Hc' _ _ Hb.
  by apply (while_body_cursor_ok _ _ _ _ _ _ _ Hc') in Hb as [? _].
Qed.

(** *** Entries of the schedule *)

(** One turn of the body adds one entry, the rounded chunk, and nothing
    else changes among the entries of the days [1 .. days_until_exam]. *)
Lemma while_body_entries topic remaining day schedule r' d' s' :
  cursor_ok days_until_exam day schedule ->
  (day <= days_until_exam)%Z ->
  while_body hours_per_day topic remaining day schedule = Done (r', d', s') ->
  (forall e0,
      In e0 (all_entries days_until_exam s')
      <-> e0 = (topic, round1 (py_min remaining (hours_per_day / 2)))
          \/ In e0 (all_entries days_until_exam schedule))
  /\ total_scheduled days_until_exam s'
     == total_scheduled days_until_exam schedule
        + round1 (py_min remaining (hours_per_day / 2))
  /\ entry_count days_until_exam s'
     = S (entry_count days_until_exam schedule).
Proof.
  intros [Hk Hd1] Hd (items & Hday & -> & _ & ->)%while_body_inv.
  assert (Hrange : (1 <= day <= days_until_exam)%Z) by lia.
  split; [|split].
  - intros e0. by apply in_entries_append.
  - by rewrite total_scheduled_append.
  - by apply entries_count_append.
Qed.

(** Every entry is a rounded chunk, and a chunk is at most half a day. *)
Lemma for_topics_capped fuel pairs day schedule d' s' :
  cursor_ok days_until_exam day schedule ->
  capped days_until_exam hours_per_day schedule ->
  for_topics fuel days_until_exam hours_per_day pairs day schedule
  = Done (d', s') ->
  capped days_until_exam hours_per_day s'.
Proof.
  intros Hc Hcap Hrun.
  apply (for_topics_inv
           (fun d s => cursor_ok days_until_exam d s
                       /\ capped days_until_exam hours_per_day s))
    in Hrun as [_ ?]; [done| |done].
  clear. intros topic remaining day schedule r' d' s' [Hc Hcap] Hr Hd Hb.
  split; [by apply (while_body_cursor_ok _ _ _ _ _ _ _ Hc) in Hb as [? _]|].
  destruct (while_body_entries _ _ _ _ _ _ _ Hc Hd Hb) as (Hin & _ & _).
  intros e [->|He]%Hin; [|by apply Hcap].
  simpl. apply round1_mono, py_min_le_r.
Qed.

(** The hours a topic gives up cover what its entries add to the
    schedule, rounding aside. *)
Lemma while_remaining_floor fuel topic hours day schedule r' d' s' :
  cursor_ok days_until_exam day schedule ->
  0 <= hours ->
  while_remaining fuel days_until_exam hours_per_day topic
    hours day schedule = Done (r', d', s') ->
  0 <= r'
  /\ unrounded_floor days_until_exam s' + r'
     <= unrounded_floor days_until_exam schedule + hours.
Proof.
  intros Hc Hh Hrun.
  apply (while_remaining_inv
           (fun r d s =>
              cursor_ok days_until_exam d s /\ 0 <= r
              /\ unrounded_floor days_until_exam s + r
                 <= unrounded_floor days_until_exam schedule + hours))
    in Hrun as [(_ & ? & ?) _]; [done| |].
  - clear. intros remaining day0 sched0 r1 d1 s1 (Hc & Hr0 & Hfl) Hr Hd Hb.
    split; [by apply (while_body_cursor_ok _ _ _ _ _ _ _ Hc) in Hb as [? _]|].
    destruct (while_body_entries _ _ _ _ _ _ _ Hc Hd Hb) as (_ & Htot & Hcnt).
    apply while_body_inv in Hb as (_ & _ & -> & _ & _).
    pose proof (py_min_le_l remaining (hours_per_day / 2)) as Hmin.
    destruct (round1_near (py_min remaining (hours_per_day / 2)))
      as [Hup _].
    unfold unrounded_floor in *. rewrite Htot, Hcnt.
    rewrite Nat2Z.inj_succ, <- Z.add_1_r, inject_Z_plus.
    change (inject_Z 1) with 1.
    split; lra.
  - repeat split; [apply Hc.. | done | lra].
Qed.

Lemma for_topics_floor fuel pairs day schedule d' s' :
  cursor_ok days_until_exam day schedule ->
  Forall (fun p => 0 <= snd p) pairs ->
  for_topics fuel days_until_exam hours_per_day pairs day schedule
  = Done (d', s') ->
  unrounded_floor days_until_exam s'
  <= unrounded_floor days_until_exam schedule + sum_float (map snd pairs).
Proof.
  intros Hc Hpos. revert day schedule Hc.
  induction Hpos as [|[topic hours] rest Hh _ IH]; intros day schedule Hc.
  - simpl. intros [= <- <-]. unfold sum_float. simpl. lra.
  - simpl.
    destruct (while_remaining fuel days_until_exam hours_per_day topic
                hours day schedule) as [[[r1 d1] s1]| |] eqn:Hw; try done.
    simpl. intros Hrun.
    pose proof (while_remaining_cursor_ok _ _ _ _ _ _ _ _ Hc Hw) as Hc1.
    apply (while_remaining_floor _ _ _ _ _ _ _ _ Hc Hh) in Hw as [Hr1 Hfl].
    apply (IH _ _ Hc1) in Hrun.
    cbn [snd] in *. rewrite sum_float_cons. lra.
Qed.

(** *** Day 1 *)

Lemma while_body_day_one topic remaining day schedule r' d' s' :
  day_one_filled schedule \/ day = 1%Z ->
  while_body hours_per_day topic remaining day schedule = Done (r', d', s') ->
  day_one_filled s'.
Proof.
  intros H (items & Hday & _ & _ & ->)%while_body_inv.
  destruct (decide (day = 1%Z)) as [->|Hne].
  - eexists. rewrite lookup_insert_eq. split; [done|].
    by destruct items.
  - destruct H as [(its & H1 & Hne')|?]; [|done].
    exists its. by rewrite lookup_insert_ne.
Qed.

Lemma for_topics_day_one fuel pairs day schedule d' s' :
  day_one_filled schedule ->
  for_topics fuel days_until_exam hours_per_day pairs day schedule
  = Done (d', s') ->
  day_one_filled s'.
Proof.
  intros H1 Hrun.
  apply (for_topics_inv (fun _ s => day_one_filled s)) in Hrun; [done| |done].
  intros ? ? ? ? ? ? ? ? _ _ Hb.
  eapply while_body_day_one; [|exact Hb]. by left.
Qed.

(** The first topic, when it has hours and there is a day, puts an entry
    on day 1. *)
Lemma while_remaining_day_one fuel topic hours schedule r' d' s' :
  0 < hours -> (1 <= days_until_exam)%Z ->
  while_remaining fuel days_until_exam hours_per_day topic
    hours 1%Z schedule = Done (r', d', s') ->
  day_one_filled s'.
Proof.
  intros Hh Hdays Hrun.
  assert (Ht : while_test days_until_exam hours 1%Z = true)
    by (apply while_test_true; split; [done | lia]).
  destruct fuel as [|fuel]; [simpl in Hrun; by rewrite Ht in Hrun|].
  rewrite while_remaining_turn in Hrun by done.
  destruct (while_body hours_per_day topic hours 1%Z schedule)
    as [[[r1 d1] s1]| |] eqn:Hb; try done.
  simpl in Hrun.
  apply (while_remaining_inv (fun _ _ s => day_one_filled s) topic)
    in Hrun as [? _]; [done| |].
  - intros ? ? ? ? ? ? ? _ _ Hb'.
    eapply while_body_day_one; [|exact Hb']. by left.
  - eapply while_body_day_one; [|exact Hb]. by right.
Qed.

(** *** Past the last day *)


(** *** Termination *)

Section Termination.

Hypothesis hours_per_day_pos : 0 < hours_per_day.

Lemma half_day_pos : 0 < hours_per_day / 2.
Proof. apply Qlt_shift_div_l; lra. Qed.


(** A topic with at most [n] half-days of hours left needs at most [n]
    turns of the loop. *)
Lemma while_remaining_terminates topic (n : nat) :
  forall fuel remaining day schedule,
    cursor_ok days_until_exam day schedule ->
    remaining <= inject_Z (Z.of_nat n) * (hours_per_day / 2) ->
    (n <= fuel)%nat ->
    exists st,
      while_remaining fuel days_until_exam hours_per_day topic
        remaining day schedule = Done st.
Proof.
  pose proof half_day_pos as Hhalf.
  induction n as [|n IH]; intros fuel remaining day schedule Hc Hrem Hfuel;
    destruct (while_test days_until_exam remaining day) eqn:Ht;
    try (rewrite while_remaining_exit by done; eauto).
  - apply while_test_true in Ht as [Hr _].
    change (inject_Z (Z.of_nat 0)) with 0 in Hrem. lra.
  - destruct fuel as [|fuel]; [lia|].
    rewrite while_remaining_turn by done.
    apply while_test_true in Ht as [Hr Hd].
    destruct Hc as [Hk Hday].
    destruct (Hk day ltac:(lia)) as [items Hitems].
    rewrite (while_body_Done _ _ _ _ items Hitems). simpl.
    apply IH; [|  |lia].
    + split; [by apply keys_ok_insert|].
      destruct (Qle_bool _ _); lia.
    + rewrite Nat2Z.inj_succ, <- Z.add_1_r, inject_Z_plus in Hrem.
      change (inject_Z 1) with 1 in Hrem.
      assert (0 <= inject_Z (Z.of_nat n)).
      { change 0 with (inject_Z 0). rewrite <- Zle_Qle. lia. }
      set (half := hours_per_day / 2) in *.
      destruct (py_min_cases remaining half) as [[-> ?]|[-> ?]]; nra.
Qed.

Lemma for_topics_terminates (n : nat) pairs :
  Forall (fun p => snd p <= inject_Z (Z.of_nat n) * (hours_per_day / 2))
         pairs ->
  forall fuel day schedule,
    cursor_ok days_until_exam day schedule ->
    (n <= fuel)%nat ->
    exists d' s',
      for_topics fuel days_until_exam hours_per_day pairs day schedule
      = Done (d', s').
Proof.
  induction 1 as [|[topic hours] rest Hh _ IH];
    intros fuel day schedule Hc Hfuel; simpl; [eauto|].
  destruct (while_remaining_terminates topic n fuel hours day schedule)
    as [[[r1 d1] s1] Hw]; [done..|].
  rewrite Hw. simpl. apply IH; [|done].
  by eapply while_remaining_cursor_ok.
Qed.

End Termination.

End Packing.

(** ** Weights and hours per topic *)

Section Allocation.

Local Open Scope Q_scope.

Lemma sum_int_from (ws : list Z) (a : Z) :
  fold_left Z.add ws a = (a + sum_int ws)%Z.
Proof.
  unfold sum_int. revert a.
  induction ws as [|w ws IH]; intros a; simpl; [lia|].
  rewrite (IH (a + w)%Z), (IH (0 + w)%Z). lia.
Qed.

Lemma sum_int_cons w ws : sum_int (w :: ws) = (w + sum_int ws)%Z.
Proof. unfold sum_int at 1. simpl. by rewrite sum_int_from. Qed.


Lemma weights_of_positive weak_list topics :
  Forall (fun w => (1 <= w)%Z) (weights_of weak_list topics).
Proof.
  induction topics as [|t topics IH]; simpl; constructor; [|done].
  destruct (any_in weak_list t); lia.
Qed.


(** Each weight is at most the total weight, which is at least the
    number of topics. *)
Lemma sum_int_bounds (ws : list Z) :
  Forall (fun w => (1 <= w)%Z) ws ->
  (Z.of_nat (List.length ws) <= sum_int ws)%Z
  /\ Forall (fun w => (w <= sum_int ws)%Z) ws.
Proof.
  induction 1 as [|w ws Hw Hws [IHlen IHle]].
  - split; [done | constructor].
  - rewrite sum_int_cons. split.
    + simpl List.length. lia.
    + constructor; [lia|].
      eapply Forall_impl; [exact IHle|]. simpl. intros; lia.
Qed.

(** With a non-zero total weight no division raises. *)
Lemma hours_per_topic_of_Done weights total_weight total_hours :
  total_weight <> 0%Z ->
  hours_per_topic_of weights total_weight total_hours
  = Done (map (fun w => inject_Z w / inject_Z total_weight * total_hours)
              weights).
Proof.
  intros HW. induction weights as [|w ws IH]; simpl; [done|].
  unfold true_div. destruct (Z.eqb_spec total_weight 0); [done|].
  simpl. by rewrite IH.
Qed.

Lemma hours_sum weights total_weight total_hours :
  sum_float (map (fun w => inject_Z w / inject_Z total_weight * total_hours)
                 weights)
  == inject_Z (sum_int weights) / inject_Z total_weight * total_hours.
Proof.
  induction weights as [|w ws IH]; simpl.
  - unfold sum_float, sum_int. simpl. unfold Qdiv. ring.
  - rewrite sum_float_cons, sum_int_cons, IH, inject_Z_plus.
    unfold Qdiv. ring.
Qed.

(** The allocations sum to the total hours. *)
Lemma hours_sum_total weights total_hours :
  sum_int weights <> 0%Z ->
  sum_float (map (fun w => inject_Z w / inject_Z (sum_int weights)
                           * total_hours) weights)
  == total_hours.
Proof.
  intros HW. rewrite hours_sum. field.
  intros H. apply HW. unfold Qeq in H. simpl in H. lia.
Qed.

(** A share is between nothing and everything. *)
Lemma share_bounds w total_weight total_hours :
  (1 <= w <= total_weight)%Z -> 0 <= total_hours ->
  0 <= inject_Z w / inject_Z total_weight * total_hours <= total_hours.
Proof.
  intros [Hw HW] HT.
  assert (H1 : 0 < inject_Z total_weight).
  { change 0 with (inject_Z 0). rewrite <- Zlt_Qlt. lia. }
  assert (H2 : 0 <= inject_Z w <= inject_Z total_weight).
  { change 0 with (inject_Z 0). rewrite <- !Zle_Qle. lia. }
  assert (H3 : 0 <= inject_Z w / inject_Z total_weight <= 1).
  { split.
    - apply Qle_shift_div_l; [done|]. lra.
    - apply Qle_shift_div_r; [done|]. lra. }
  set (share := inject_Z w / inject_Z total_weight) in *. nra.
Qed.

(** A strictly positive share of strictly positive hours. *)
Lemma share_pos w total_weight total_hours :
  (1 <= w)%Z -> (1 <= total_weight)%Z -> 0 < total_hours ->
  0 < inject_Z w / inject_Z total_weight * total_hours.
Proof.
  intros Hw HW HT.
  assert (H1 : 0 < inject_Z total_weight).
  { change 0 with (inject_Z 0). rewrite <- Zlt_Qlt. lia. }
  assert (H2 : 0 < inject_Z w).
  { change 0 with (inject_Z 0). rewrite <- Zlt_Qlt. lia. }
  assert (H3 : 0 < inject_Z w / inject_Z total_weight).
  { apply Qlt_shift_div_l; [done|]. lra. }
  set (share := inject_Z w / inject_Z total_weight) in *. nra.
Qed.

End Allocation.

(** ** From the module to the filled schedule *)

Lemma map_snd_combine {A B : Type} (l : list A) (k : list B) :
  List.length l = List.length k -> map snd (combine l k) = k.
Proof.
  revert k. induction l as [|x l IH]; intros [|y k]; simpl; try done.
  intros [= H]. by rewrite IH.
Qed.

Section FillSchedule.

Local Open Scope Q_scope.

Variables (topics : list string) (days_until_exam : Z) (hours_per_day : Q)
          (weak_topics : string).

Abbreviation weights := (weights_of (weak_list_of weak_topics) topics).
Abbreviation total_hours := (inject_Z days_until_exam * hours_per_day).
Abbreviation pairs :=
  (topic_hours topics days_until_exam hours_per_day weak_topics).

Hypothesis topics_nonempty : topics <> [].

Lemma total_weight_pos : (1 <= sum_int weights)%Z.
Proof.
  destruct (sum_int_bounds weights (weights_of_positive _ topics))
    as [Hlen _].
  unfold weights_of in Hlen. rewrite length_map in Hlen.
  destruct topics; [done|]. simpl List.length in Hlen.
  unfold weights_of. lia.
Qed.

(** With at least one topic no division raises, and the schedule is what
    the [for] loop makes of the empty dictionary. *)
Lemma fill_schedule_known fuel :
  fill_schedule fuel topics days_until_exam hours_per_day weak_topics
  = '(_, schedule) ←
      for_topics fuel days_until_exam hours_per_day pairs
        1%Z (empty_schedule days_until_exam);
    Done schedule.
Proof.
  pose proof total_weight_pos as HW.
  unfold fill_schedule.
  rewrite hours_per_topic_of_Done by lia. done.
Qed.

Lemma pairs_hours : map snd pairs = spec_hours weights total_hours.
Proof.
  unfold topic_hours. apply map_snd_combine.
  unfold spec_hours, weights_of. by rewrite !length_map.
Qed.

Lemma pairs_sum : sum_float (map snd pairs) == total_hours.
Proof.
  pose proof total_weight_pos as HW.
  rewrite pairs_hours. unfold spec_hours. apply hours_sum_total. lia.
Qed.

Lemma pairs_bounds :
  0 <= total_hours ->
  Forall (fun p => 0 <= snd p <= total_hours) pairs.
Proof.
  intros HT. pose proof total_weight_pos as HW.
  destruct (sum_int_bounds weights (weights_of_positive _ topics))
    as [_ Hle].
  pose proof (weights_of_positive (weak_list_of weak_topics) topics) as Hpos.
  assert (H : Forall (fun h => 0 <= h <= total_hours)
                     (spec_hours weights total_hours)).
  { unfold spec_hours. apply Forall_map.
    apply Forall_forall. intros w Hw.
    rewrite Forall_forall in Hle, Hpos.
    apply share_bounds; [|done].
    split; [apply Hpos | apply Hle]; done. }
  rewrite <- pairs_hours in H.
  apply Forall_map in H. exact H.
Qed.

End FillSchedule.

(** ** Requests with at least one day and a positive number of hours *)

Section ValidRequest.

Local Open Scope Q_scope.

Variables (topics : list string) (days_until_exam : Z) (hours_per_day : Q)
          (weak_topics : string).

Hypothesis topics_nonempty : topics <> [].
Hypothesis days_pos : (1 <= days_until_exam)%Z.
Hypothesis hours_pos : 0 < hours_per_day.

Abbreviation pairs :=
  (topic_hours topics days_until_exam hours_per_day weak_topics).

Lemma total_hours_pos : 0 < inject_Z days_until_exam * hours_per_day.
Proof.
  assert (0 < inject_Z days_until_exam).
  { change 0 with (inject_Z 0). rewrite <- Zlt_Qlt. lia. }
  nra.
Qed.

(** The total hours are [2 * days_until_exam] half-days. *)
Lemma total_hours_half_days :
  inject_Z (Z.of_nat (enough_fuel days_until_exam)) * (hours_per_day / 2)
  == inject_Z days_until_exam * hours_per_day.
Proof.
  unfold enough_fuel. rewrite Z2Nat.id by lia.
  rewrite inject_Z_mult. change (inject_Z 2) with 2. field.
Qed.

(** The cursor starts at 1, never decreases and stops at the latest one
    past the last day. *)
Lemma for_topics_cursor_range fuel (ps : list (string * Q)) day schedule d' s' :
  (day <= days_until_exam + 1)%Z ->
  for_topics fuel days_until_exam hours_per_day ps day schedule
  = Done (d', s') ->
  (day <= d' <= days_until_exam + 1)%Z.
Proof.
  intros Hd Hrun.
  apply (for_topics_inv days_until_exam hours_per_day
           (fun d _ => (day <= d <= days_until_exam + 1)%Z)) in Hrun;
    [done| |lia].
  intros ? ? ? ? ? ? ? ? _ ? (items & _ & _ & Hd' & _)%while_body_inv. lia.
Qed.

(** With [enough_fuel] the [for] loop returns, and more fuel returns the
    same. *)
Lemma for_topics_returns :
  exists d' schedule,
    forall fuel, (enough_fuel days_until_exam <= fuel)%nat ->
      for_topics fuel days_until_exam hours_per_day pairs
        1%Z (empty_schedule days_until_exam) = Done (d', schedule).
Proof.
  pose proof total_hours_pos as HT.
  destruct (for_topics_terminates days_until_exam hours_per_day hours_pos
              (enough_fuel days_until_exam) pairs)
    with (fuel := enough_fuel days_until_exam) (day := 1%Z)
         (schedule := empty_schedule days_until_exam)
    as (d' & s' & Hrun).
  - eapply Forall_impl; [apply pairs_bounds; [done | lra]|].
    intros p [_ Hp]. simpl. rewrite total_hours_half_days. exact Hp.
  - split; [apply empty_schedule_keys_ok | lia].
  - lia.
  - exists d', s'. intros fuel Hfuel.
    by apply (for_topics_fuel _ _ _ _ _ _ _ _ Hrun).
Qed.

(** The first topic has hours to schedule. *)
Lemma first_topic_hours :
  exists topic hours rest, pairs = (topic, hours) :: rest /\ 0 < hours.
Proof.
  pose proof total_hours_pos as HT.
  pose proof (total_weight_pos topics weak_topics topics_nonempty) as HW.
  pose proof (weights_of_positive (weak_list_of weak_topics) topics) as Hpos.
  unfold topic_hours, spec_hours.
  destruct topics as [|t ts]; [done|].
  simpl weights_of in *. apply Forall_cons in Hpos as [Hw _].
  set (w := if any_in (weak_list_of weak_topics) t then 2%Z else 1%Z) in *.
  simpl. eexists _, _, _. split; [done|].
  by apply share_pos.
Qed.

(** Whatever the fuel, a schedule that is returned has an entry on day 1,
    keeps its keys, holds only rounded chunks of at most half a day, and
    does not hold more than the total hours, rounding aside. *)
Lemma for_topics_result fuel d' schedule :
  for_topics fuel days_until_exam hours_per_day pairs
    1%Z (empty_schedule days_until_exam) = Done (d', schedule) ->
  (1 <= d' <= days_until_exam + 1)%Z
  /\ keys_ok days_until_exam schedule
  /\ day_one_filled schedule
  /\ capped days_until_exam hours_per_day schedule
  /\ unrounded_floor days_until_exam schedule
     <= inject_Z days_until_exam * hours_per_day.
Proof.
  intros Hrun.
  pose proof total_hours_pos as HT.
  assert (Hc : cursor_ok days_until_exam 1 (empty_schedule days_until_exam))
    by (split; [apply empty_schedule_keys_ok | lia]).
  assert (Hempty : all_entries days_until_exam
                     (empty_schedule days_until_exam) = [])
    by apply all_entries_empty.
  split; [|split; [|split; [|split]]].
  - eapply for_topics_cursor_range; [|exact Hrun]. lia.
  - apply (for_topics_inv days_until_exam hours_per_day
             (fun d s => cursor_ok days_until_exam d s)) in Hrun;
      [apply Hrun| |done].
    intros ? ? ? ? ? ? ? Hc' _ _ Hb.
    by destruct (while_body_cursor_ok _ _ _ _ _ _ _ _ _ Hc' Hb) as [? _].
  - destruct first_topic_hours as (t & h & rest & Hp & Hh).
    rewrite Hp in Hrun. simpl in Hrun.
    destruct (while_remaining fuel days_until_exam hours_per_day t h 1
                (empty_schedule days_until_exam))
      as [[[r1 d1] s1]| |] eqn:Hw; try done.
    simpl in Hrun.
    eapply for_topics_day_one; [|exact Hrun].
    eapply while_remaining_day_one; [exact Hh | exact days_pos | exact Hw].
  - eapply for_topics_capped; [exact Hc| |exact Hrun].
    intros e. rewrite Hempty. by intros [].
  - apply for_topics_floor in Hrun; [|done|].
    + rewrite pairs_sum in Hrun by done.
      assert (Hz : unrounded_floor days_until_exam
                     (empty_schedule days_until_exam) == 0).
      { unfold unrounded_floor, total_scheduled, entry_count.
        rewrite Hempty. reflexivity. }
      lra.
    + eapply Forall_impl; [apply pairs_bounds; [done | lra]|].
      by intros p [? _].
Qed.

End ValidRequest.

(** ** The rendered text *)

Section RenderingFacts.

Variable str_float : Q -> string.

Lemma schedule_items_day_one days_until_exam (schedule : schedule_t) :
  (1 <= days_until_exam)%Z -> day_one_filled schedule ->
  exists items rest,
    items <> []
    /\ schedule_items days_until_exam schedule = (1%Z, items) :: rest.
Proof.
  intros Hd (items & H1 & Hne). unfold schedule_items.
  rewrite seqZ_cons by lia. csimpl. rewrite H1. csimpl. eauto.
Qed.

(** A schedule with an entry on day 1 is printed; the message of the
    empty schedule is not returned. *)
Lemma render_schedule_filled module_name days_until_exam hours_per_day
    weak_topics (schedule : schedule_t) :
  (1 <= days_until_exam)%Z -> day_one_filled schedule ->
  render_schedule str_float module_name days_until_exam hours_per_day
    weak_topics schedule
  = join nl (schedule_lines str_float module_name days_until_exam
               hours_per_day weak_topics schedule)
  /\ render_schedule str_float module_name days_until_exam hours_per_day
       weak_topics schedule <> unbuildable.
Proof.
  intros Hd H1.
  destruct (schedule_items_day_one _ _ Hd H1) as (items & rest & Hne & Hit).
  unfold render_schedule, schedule_lines. rewrite Hit.
  destruct items as [|e items]; [done|].
  cbn [day_lines is_nil].
  rewrite length_app. cbn [List.length Nat.add Nat.ltb Nat.leb].
  split; [done|].
  generalize (day_lines str_float rest). intros more.
  cbn [app join String.concat]. discriminate.
Qed.

End RenderingFacts.

(** ** The schedule builder on valid requests *)

Lemma lookup_topics_nonempty module_name topics :
  lookup_topics module_name = Some topics -> topics <> [].
Proof.
  unfold lookup_topics.
  destruct (SYLLABUS !! strip (lower module_name)) as [[|t ts]|];
    intros [= <-]; done.
Qed.

(** For a valid request there is one schedule, returned with any fuel from
    [enough_fuel] on, and it has the properties of [for_topics_result]. *)
Lemma fill_schedule_valid topics days_until_exam hours_per_day weak_topics :
  topics <> [] -> (1 <= days_until_exam)%Z -> (0 < hours_per_day)%Q ->
  exists d' schedule,
    (forall fuel, (enough_fuel days_until_exam <= fuel)%nat ->
       for_topics fuel days_until_exam hours_per_day
         (topic_hours topics days_until_exam hours_per_day weak_topics)
         1%Z (empty_schedule days_until_exam) = Done (d', schedule)
       /\ fill_schedule fuel topics days_until_exam hours_per_day weak_topics
          = Done schedule)
    /\ (1 <= d' <= days_until_exam + 1)%Z
    /\ keys_ok days_until_exam schedule
    /\ day_one_filled schedule
    /\ capped days_until_exam hours_per_day schedule
    /\ (unrounded_floor days_until_exam schedule
        <= inject_Z days_until_exam * hours_per_day)%Q.
Proof.
  intros Hne Hdays Hhours.
  destruct (for_topics_returns topics days_until_exam hours_per_day weak_topics
              Hne Hdays Hhours) as (d' & schedule & Hrun).
  exists d', schedule. split.
  - intros fuel Hfuel. split; [by apply Hrun|].
    rewrite fill_schedule_known by done. by rewrite (Hrun fuel Hfuel).
  - eapply for_topics_result; try done. by apply (Hrun _ (le_n _)).
Qed.





(** ** Hours in the schedule *)




(** C2, as the code has it: in every schedule that is returned, each entry
    is a chunk of at most [hours_per_day / 2] rounded to one decimal, so it
    is at most [round(hours_per_day / 2, 1)], which is at most
    [hours_per_day / 2 + 0.05]. *)
Theorem chunk_entries_capped (module_name : string) (topics : list string)
    (days_until_exam : Z) (hours_per_day : Q) (weak_topics : string)
    (fuel : nat) (schedule : schedule_t) :
  lookup_topics module_name = Some topics ->
  fill_schedule fuel topics days_until_exam hours_per_day weak_topics
  = Done schedule ->
  forall topic hours,
    In (topic, hours) (all_entries days_until_exam schedule) ->
    (hours <= round1 (hours_per_day / 2))%Q
    /\ (hours <= hours_per_day / 2 + (1 # 20))%Q.
Proof.
  intros Hm Hfill topic hours Hin.
  pose proof (lookup_topics_nonempty _ _ Hm) as Hne.
  rewrite fill_schedule_known in Hfill by done.
  destruct (for_topics fuel days_until_exam hours_per_day
              (topic_hours topics days_until_exam hours_per_day weak_topics)
              1 (empty_schedule days_until_exam))
    as [[d' s']| |] eqn:Hrun; try done.
  simpl in Hfill. injection Hfill as ->.
  assert (Hcap : capped days_until_exam hours_per_day schedule).
  { eapply for_topics_capped; [|  |exact Hrun].
    - split; [apply empty_schedule_keys_ok | lia].
    - intros e. rewrite all_entries_empty. by intros []. }
  apply Hcap in Hin. simpl in Hin.
  destruct (round1_near (hours_per_day / 2)%Q) as [Hup _].
  split; [done | lra].
Qed.

Lemma chunk_entries_capped_witness :
  exists schedule,
    fill_schedule 10 (default [] (SYLLABUS !! "generative ai")) 5 (3 # 2)
      EmptyString = Done schedule
    /\ forall topic hours,
         In (topic, hours) (all_entries 5 schedule) ->
         (hours <= round1 ((3 # 2) / 2))%Q
         /\ (hours <= (3 # 2) / 2 + (1 # 20))%Q.
Proof.
  assert (Hm : lookup_topics "generative ai"
               = Some (default [] (SYLLABUS !! "generative ai")))
    by (vm_compute; reflexivity).
  eexists. split; [vm_compute; reflexivity|].
  apply (chunk_entries_capped "generative ai" _ 5 (3 # 2) EmptyString 10 _ Hm).
  vm_compute. reflexivity.
Defined.

(** The cap [hours_per_day / 2] itself fails:
    [build_study_schedule("generative ai", 5, 1.5, "")] cuts chunks of
    0.75 h and records each as [round(0.75, 1) = 0.8]. *)
Lemma chunk_entry_above_half_day :
  exists topics schedule,
    lookup_topics "generative ai" = Some topics
    /\ fill_schedule 10 topics 5 (3 # 2) EmptyString = Done schedule
    /\ In ("LLM fundamentals", 8 # 10) (all_entries 5 schedule)
    /\ ~ (8 # 10 <= (3 # 2) / 2)%Q.
Proof.
  eexists _, _. split; [vm_compute; reflexivity|].
  split; [vm_compute; reflexivity|].
  split; vm_compute; [left; reflexivity | intros H; by apply H].
Qed.

(** ** Running out of days *)




(** ** Weak topics *)



(** ** The request of the specification's example *)

Lemma fill_schedule_fuel fuel fuel' topics days_until_exam hours_per_day
    weak_topics (schedule : schedule_t) :
  fill_schedule fuel topics days_until_exam hours_per_day weak_topics
  = Done schedule ->
  (fuel <= fuel')%nat ->
  fill_schedule fuel' topics days_until_exam hours_per_day weak_topics
  = Done schedule.
Proof.
  unfold fill_schedule. intros Hfill Hle.
  destruct (hours_per_topic_of _ _ _) as [hours| |]; try done.
  simpl in *.
  destruct (for_topics fuel _ _ _ _ _) as [[d s]| |] eqn:Hrun; try done.
  by rewrite (for_topics_fuel _ _ _ _ _ _ _ _ Hrun Hle).
Qed.

(** C5: [build_study_schedule("generative ai", 5, 3.0, "")] has no weak
    substring, so each of the 7 topics has weight 1 and 15/7 hours; the
    schedule it prints has entries on each of the 5 days and every topic
    has an entry. *)
Theorem generative_ai_uniform_schedule (str_float : Q -> string) :
  exists topics hours_per_topic schedule,
    lookup_topics "generative ai" = Some topics
    /\ List.length topics = 7%nat
    /\ weak_list_of EmptyString = []
    /\ weights_of (weak_list_of EmptyString) topics
       = [1; 1; 1; 1; 1; 1; 1]%Z
    /\ hours_per_topic_of (weights_of (weak_list_of EmptyString) topics)
         (sum_int (weights_of (weak_list_of EmptyString) topics))
         (inject_Z 5 * 3)%Q
       = Done hours_per_topic
    /\ Forall (fun h => h == 15 # 7)%Q hours_per_topic
    /\ (forall fuel, (enough_fuel 5 <= fuel)%nat ->
          fill_schedule fuel topics 5 3 EmptyString = Done schedule
          /\ build_study_schedule str_float fuel "generative ai" 5 3 EmptyString
             = Done (join nl (schedule_lines str_float "generative ai" 5 3
                                EmptyString schedule)))
    /\ schedule_items 5 schedule
       = [ (1%Z, [ ("LLM fundamentals", 15 # 10);
                   ("LLM fundamentals", 6 # 10);
                   ("Prompt engineering", 15 # 10) ]);
           (2%Z, [ ("Prompt engineering", 6 # 10);
                   ("OpenAI & Groq APIs", 15 # 10);
                   ("OpenAI & Groq APIs", 6 # 10) ]);
           (3%Z, [ ("LangChain basics", 15 # 10);
                   ("LangChain basics", 6 # 10);
                   ("Agents and Tools", 15 # 10) ]);
           (4%Z, [ ("Agents and Tools", 6 # 10);
                   ("RAG", 15 # 10);
                   ("RAG", 6 # 10) ]);
           (5%Z, [ ("Agent security & guardrails", 15 # 10);
                   ("Agent security & guardrails", 6 # 10) ]) ]
    /\ Forall (covers 5 schedule) topics.
Proof.
  assert (Hrun : exists schedule,
            fill_schedule (enough_fuel 5)
              (default [] (SYLLABUS !! "generative ai")) 5 3 EmptyString
            = Done schedule
            /\ day_one_filled schedule
            /\ schedule_items 5 schedule
               = [ (1%Z, [ ("LLM fundamentals", 15 # 10);
                           ("LLM fundamentals", 6 # 10);
                           ("Prompt engineering", 15 # 10) ]);
                   (2%Z, [ ("Prompt engineering", 6 # 10);
                           ("OpenAI & Groq APIs", 15 # 10);
                           ("OpenAI & Groq APIs", 6 # 10) ]);
                   (3%Z, [ ("LangChain basics", 15 # 10);
                           ("LangChain basics", 6 # 10);
                           ("Agents and Tools", 15 # 10) ]);
                   (4%Z, [ ("Agents and Tools", 6 # 10);
                           ("RAG", 15 # 10);
                           ("RAG", 6 # 10) ]);
                   (5%Z, [ ("Agent security & guardrails", 15 # 10);
                           ("Agent security & guardrails", 6 # 10) ]) ]).
  { eexists. split; [vm_compute; reflexivity|].
    split; [|vm_compute; reflexivity].
    eexists. split; [vm_compute; reflexivity | discriminate]. }
  destruct Hrun as (schedule & Hfill & Hone & Hitems).
  assert (Hm : lookup_topics "generative ai"
               = Some (default [] (SYLLABUS !! "generative ai")))
    by (vm_compute; reflexivity).
  exists (default [] (SYLLABUS !! "generative ai")).
  eexists. exists schedule.
  split; [exact Hm|].
  split; [reflexivity|].
  split; [vm_compute; reflexivity|].
  split; [vm_compute; reflexivity|].
  split; [vm_compute; reflexivity|].
  split; [repeat constructor|].
  split; [|split; [exact Hitems|]].
  - intros fuel Hfuel.
    pose proof (fill_schedule_fuel _ _ _ _ _ _ _ Hfill Hfuel) as Hfill'.
    split; [exact Hfill'|].
    unfold build_study_schedule. rewrite Hm, Hfill'.
    unfold mbind, outcome_bind. f_equal.
    by apply render_schedule_filled.
  - unfold covers, all_entries. rewrite Hitems.
    repeat constructor; eexists; cbn [flat_map snd app In]; tauto.
Qed.

(** The text of that call, with the numbers printed as Python prints
    them. *)
Example generative_ai_uniform_schedule_text :
  build_study_schedule str_tenths 10 "generative ai" 5 3 EmptyString
  = Done
      "Study schedule for 'generative ai'
Days until exam: 5, Hours per day: 3.0
Weak topics prioritized: None specified

Day 1:
  - LLM fundamentals: 1.5 hour(s)
  - LLM fundamentals: 0.6 hour(s)
  - Prompt engineering: 1.5 hour(s)

Day 2:
  - Prompt engineering: 0.6 hour(s)
  - OpenAI & Groq APIs: 1.5 hour(s)
  - OpenAI & Groq APIs: 0.6 hour(s)

Day 3:
  - LangChain basics: 1.5 hour(s)
  - LangChain basics: 0.6 hour(s)
  - Agents and Tools: 1.5 hour(s)

Day 4:
  - Agents and Tools: 0.6 hour(s)
  - RAG: 1.5 hour(s)
  - RAG: 0.6 hour(s)

Day 5:
  - Agent security & guardrails: 1.5 hour(s)
  - Agent security & guardrails: 0.6 hour(s)
".
Proof. vm_compute. reflexivity. Qed.

(** * Further properties of the day packer *)

(** ** Entries in the order they were appended *)

Section AppendOrder.

Implicit Types (schedule : schedule_t) (items : list entry) (day d : Z).

(** The entries of the days of a list of keys. *)
Lemma entries_of_keys_empty (keys : list Z) schedule :
  (forall d items, d ∈ keys -> schedule !! d = Some items -> items = []) ->
  flat_map snd (omap (fun d => (fun its => (d, its)) <$> schedule !! d) keys)
  = [].
Proof.
  induction keys as [|k keys IH]; intros Hk; [done|]. csimpl.
  destruct (schedule !! k) as [its|] eqn:Hits; csimpl.
  - rewrite (Hk k its) by (done || left). simpl. apply IH.
    intros d items Hd. apply Hk. by right.
  - apply IH. intros d items Hd. apply Hk. by right.
Qed.

Lemma schedule_items_split days_until_exam day :
  (1 <= day <= days_until_exam)%Z ->
  seqZ 1 days_until_exam
  = (seqZ 1 (day - 1) ++ [day] ++ seqZ (day + 1) (days_until_exam - day))%list.
Proof.
  intros Hd.
  replace days_until_exam with ((day - 1) + (1 + (days_until_exam - day)))%Z
    at 1 by lia.
  rewrite seqZ_app by lia. f_equal.
  replace (1 + (day - 1))%Z with day by lia.
  rewrite seqZ_app by lia. f_equal.
Qed.

(** With nothing after the cursor, the new entry is the last one of the
    whole schedule. *)
Lemma all_entries_append_last days_until_exam schedule day items e :
  (1 <= day <= days_until_exam)%Z ->
  schedule !! day = Some items ->
  later_days_empty day schedule ->
  all_entries days_until_exam (<[day := (items ++ [e])%list]> schedule)
  = (all_entries days_until_exam schedule ++ [e])%list.
Proof.
  intros Hd Hday Hlater. unfold all_entries, schedule_items.
  rewrite (schedule_items_split days_until_exam day Hd).
  rewrite !omap_app, !flat_map_app.
  rewrite (items_insert_other (seqZ 1 (day - 1)))
    by (intros Hin%elem_of_seqZ; lia).
  rewrite (items_insert_other (seqZ (day + 1) (days_until_exam - day)))
    by (intros Hin%elem_of_seqZ; lia).
  csimpl. rewrite lookup_insert_eq, Hday. csimpl.
  rewrite (entries_of_keys_empty (seqZ (day + 1) (days_until_exam - day))).
  - by rewrite !app_nil_r, <- !app_assoc.
  - intros d its Hin%elem_of_seqZ. apply Hlater. lia.
Qed.

Lemma replicate_snoc {A : Type} (n : nat) (x : A) :
  (replicate n x ++ [x])%list = replicate (S n) x.
Proof. induction n as [|n IH]; simpl; [done|]. by rewrite IH. Qed.

End AppendOrder.

(** ** The day packer, turn by turn *)

Section PackerInvariants.

Local Open Scope Q_scope.

Variables (days_until_exam : Z) (hours_per_day : Q).

Implicit Types (schedule : schedule_t) (remaining : Q) (day : Z).


Lemma empty_schedule_lookup_inv d (items : list entry) :
  empty_schedule days_until_exam !! d = Some items -> items = [].
Proof.
  unfold empty_schedule. intros H%elem_of_list_to_map_2.
  apply list_elem_of_fmap in H as (k & [= _ ->] & _). done.
Qed.

(** *** Topics in catalog order *)

Lemma while_body_append_last topic remaining day schedule r' d' s' :
  cursor_ok days_until_exam day schedule ->
  later_days_empty day schedule ->
  (day <= days_until_exam)%Z ->
  while_body hours_per_day topic remaining day schedule = Done (r', d', s') ->
  later_days_empty d' s'
  /\ all_entries days_until_exam s'
     = (all_entries days_until_exam schedule
        ++ [(topic, round1 (py_min remaining (hours_per_day / 2)))])%list.
Proof.
  intros [Hk Hd1] Hlater Hd (items & Hday & -> & Hd' & ->)%while_body_inv.
  split.
  - intros d its Hlt Hits. rewrite lookup_insert_ne in Hits by lia.
    eapply Hlater; [|exact Hits]. lia.
  - apply all_entries_append_last; [lia | done | done].
Qed.

Lemma while_remaining_order fuel topic hours day schedule r' d' s' :
  cursor_ok days_until_exam day schedule ->
  later_days_empty day schedule ->
  while_remaining fuel days_until_exam hours_per_day topic
    hours day schedule = Done (r', d', s') ->
  cursor_ok days_until_exam d' s'
  /\ later_days_empty d' s'
  /\ exists n,
       map fst (all_entries days_until_exam s')
       = (map fst (all_entries days_until_exam schedule)
          ++ replicate n topic)%list.
Proof.
  intros Hc Hlater Hrun.
  apply (while_remaining_inv days_until_exam hours_per_day
           (fun _ d s =>
              cursor_ok days_until_exam d s /\ later_days_empty d s
              /\ exists n,
                   map fst (all_entries days_until_exam s)
                   = (map fst (all_entries days_until_exam schedule)
                      ++ replicate n topic)%list))
    in Hrun as [? _]; [done| |].
  - clear. intros remaining day0 s0 r1 d1 s1 (Hc & Hl & n & Hn) Hr Hd Hb.
    destruct (while_body_append_last _ _ _ _ _ _ _ Hc Hl Hd Hb) as [Hl1 He].
    split; [by destruct (while_body_cursor_ok _ _ _ _ _ _ _ _ _ Hc Hb)|].
    split; [done|]. exists (S n).
    rewrite He, map_app, Hn, <- app_assoc. simpl map.
    by rewrite replicate_snoc.
  - repeat split; [apply Hc.. | done |]. exists 0%nat. by rewrite app_nil_r.
Qed.

Lemma for_topics_order fuel (pairs : list (string * Q)) day schedule d' s' :
  cursor_ok days_until_exam day schedule ->
  later_days_empty day schedule ->
  for_topics fuel days_until_exam hours_per_day pairs day schedule
  = Done (d', s') ->
  exists counts,
    List.length counts = List.length pairs
    /\ map fst (all_entries days_until_exam s')
       = (map fst (all_entries days_until_exam schedule)
          ++ repeat_topics (map fst pairs) counts)%list.
Proof.
  revert day schedule.
  induction pairs as [|[topic hours] rest IH]; intros day schedule Hc Hl.
  - simpl. intros [= <- <-]. exists []. by rewrite app_nil_r.
  - simpl.
    destruct (while_remaining fuel days_until_exam hours_per_day topic
                hours day schedule) as [[[r1 d1] s1]| |] eqn:Hw; try done.
    simpl. intros Hrun.
    destruct (while_remaining_order _ _ _ _ _ _ _ _ Hc Hl Hw)
      as (Hc1 & Hl1 & n & Hn).
    destruct (IH _ _ Hc1 Hl1 Hrun) as (counts & Hlen & Hrest).
    exists (n :: counts). split; [simpl; by rewrite Hlen|].
    rewrite Hrest, Hn, <- app_assoc. done.
Qed.

(** *** Load of the days *)

Section PositiveHours.

Hypothesis hours_per_day_pos : 0 < hours_per_day.






End PositiveHours.

End PackerInvariants.

(** ** Hours taken and entries made *)

Section PackerCounts.

Local Open Scope Q_scope.

Variables (days_until_exam : Z) (hours_per_day : Q).

Implicit Types (schedule : schedule_t) (remaining : Q) (day : Z).




Section PositiveHours.

Hypothesis hours_per_day_pos : 0 < hours_per_day.



End PositiveHours.

(** *** Requests with no day or no hours *)

(** When no topic has hours, or there is no day, no loop is entered. *)
Lemma for_topics_idle fuel (pairs : list (string * Q)) schedule :
  (days_until_exam < 1)%Z \/ Forall (fun p => snd p <= 0) pairs ->
  for_topics fuel days_until_exam hours_per_day pairs 1%Z schedule
  = Done (1%Z, schedule).
Proof.
  intros H. induction pairs as [|[topic hours] rest IH]; simpl; [done|].
  rewrite while_remaining_exit.
  - simpl. apply IH. destruct H as [?|H]; [by left | right].
    by apply Forall_cons in H as [_ ?].
  - apply while_test_false. destruct H as [?|H]; [by right | left].
    by apply Forall_cons in H as [? _].
Qed.

End PackerCounts.

(** A share of hours that are not positive is not positive. *)
Lemma share_nonpos w total_weight total_hours :
  (1 <= w)%Z -> (1 <= total_weight)%Z -> (total_hours <= 0)%Q ->
  (inject_Z w / inject_Z total_weight * total_hours <= 0)%Q.
Proof.
  intros Hw HW HT.
  assert (H1 : (0 < inject_Z total_weight)%Q).
  { change 0%Q with (inject_Z 0). rewrite <- Zlt_Qlt. lia. }
  assert (H2 : (0 < inject_Z w)%Q).
  { change 0%Q with (inject_Z 0). rewrite <- Zlt_Qlt. lia. }
  assert (H3 : (0 < inject_Z w / inject_Z total_weight)%Q).
  { apply Qlt_shift_div_l; [done|]. lra. }
  set (share := (inject_Z w / inject_Z total_weight)%Q) in *. nra.
Qed.

Lemma topic_hours_nonpos topics days_until_exam hours_per_day weak_topics :
  topics <> [] ->
  (inject_Z days_until_exam * hours_per_day <= 0)%Q ->
  Forall (fun p => (snd p <= 0)%Q)
         (topic_hours topics days_until_exam hours_per_day weak_topics).
Proof.
  intros Hne HT.
  pose proof (total_weight_pos topics weak_topics Hne) as HW.
  pose proof (weights_of_positive (weak_list_of weak_topics) topics) as Hpos.
  assert (H : Forall (fun h => (h <= 0)%Q)
                (spec_hours (weights_of (weak_list_of weak_topics) topics)
                   (inject_Z days_until_exam * hours_per_day)%Q)).
  { unfold spec_hours. apply List.Forall_forall. intros h Hin.
    apply in_map_iff in Hin as (w & <- & Hw).
    rewrite List.Forall_forall in Hpos. apply share_nonpos; auto. }
  apply List.Forall_forall. intros [t h] Hin. cbn [snd].
  rewrite List.Forall_forall in H. apply H.
  rewrite <- (pairs_hours topics days_until_exam hours_per_day weak_topics).
  apply in_map_iff. by exists (t, h).
Qed.

Lemma map_fst_combine {A B : Type} (l : list A) (k : list B) :
  List.length l = List.length k -> map fst (combine l k) = l.
Proof.
  revert k. induction l as [|x l IH]; intros [|y k]; simpl; try done.
  intros [= H]. by rewrite IH.
Qed.

Lemma topic_hours_topics topics days_until_exam hours_per_day weak_topics :
  map fst (topic_hours topics days_until_exam hours_per_day weak_topics)
  = topics.
Proof.
  unfold topic_hours. apply map_fst_combine.
  unfold spec_hours, weights_of. by rewrite !length_map.
Qed.

(** What [fill_schedule] returns is what the [for] loop returns. *)
Lemma fill_schedule_run fuel topics days_until_exam hours_per_day weak_topics
    (schedule : schedule_t) :
  topics <> [] ->
  fill_schedule fuel topics days_until_exam hours_per_day weak_topics
  = Done schedule ->
  exists d',
    for_topics fuel days_until_exam hours_per_day
      (topic_hours topics days_until_exam hours_per_day weak_topics)
      1%Z (empty_schedule days_until_exam) = Done (d', schedule).
Proof.
  intros Hne Hfill. rewrite fill_schedule_known in Hfill by done.
  destruct (for_topics _ _ _ _ _ _) as [[d' s']| |]; try done.
  simpl in Hfill. injection Hfill as ->. by exists d'.
Qed.

(** ** What a user can rely on in a returned schedule *)





(** X2: the entries of a returned schedule, read day after day, name the
    topics of the module in catalog order, each some number of times in a
    row (possibly none); so every scheduled topic is a topic of the
    module and no topic comes back once a later one has started. *)
Theorem schedule_follows_catalog_order (module_name : string)
    (topics : list string) (days_until_exam : Z) (hours_per_day : Q)
    (weak_topics : string) (fuel : nat) (schedule : schedule_t) :
  lookup_topics module_name = Some topics ->
  fill_schedule fuel topics days_until_exam hours_per_day weak_topics
  = Done schedule ->
  (exists counts,
     List.length counts = List.length topics
     /\ map fst (all_entries days_until_exam schedule)
        = repeat_topics topics counts)
  /\ (forall topic hours,
        In (topic, hours) (all_entries days_until_exam schedule) ->
        In topic topics).
Proof.
  intros Hm Hfill. pose proof (lookup_topics_nonempty _ _ Hm) as Hne.
  destruct (fill_schedule_run _ _ _ _ _ _ Hne Hfill) as [d' Hrun].
  apply for_topics_order in Hrun as (counts & Hlen & Horder).
  - rewrite all_entries_empty, topic_hours_topics in Horder.
    assert (Hlen' : List.length counts = List.length topics).
    { rewrite Hlen. unfold topic_hours.
      rewrite length_combine. unfold spec_hours, weights_of.
      rewrite !length_map. lia. }
    split; [by exists counts|].
    intros topic hours Hin.
    assert (Ht : In topic (map fst (all_entries days_until_exam schedule)))
      by (apply in_map_iff; by exists (topic, hours)).
    rewrite Horder in Ht. simpl in Ht. unfold repeat_topics in Ht.
    apply in_flat_map in Ht as ([t n] & Hp & Hr).
    apply in_combine_l in Hp. simpl in Hr.
    apply list_elem_of_In, elem_of_replicate in Hr as [-> _]. done.
  - split; [apply empty_schedule_keys_ok | lia].
  - intros d items _ H. by apply empty_schedule_lookup_inv in H.
Qed.

Lemma schedule_follows_catalog_order_witness :
  exists schedule,
    fill_schedule 10 (default [] (SYLLABUS !! "generative ai")) 5 3
      "rag" = Done schedule
    /\ (exists counts,
          List.length counts
          = List.length (default [] (SYLLABUS !! "generative ai"))
          /\ map fst (all_entries 5 schedule)
             = repeat_topics (default [] (SYLLABUS !! "generative ai"))
                 counts)
    /\ (forall topic hours,
          In (topic, hours) (all_entries 5 schedule) ->
          In topic (default [] (SYLLABUS !! "generative ai"))).
Proof.
  assert (Hm : lookup_topics "generative ai"
               = Some (default [] (SYLLABUS !! "generative ai")))
    by (vm_compute; reflexivity).
  eexists. split; [vm_compute; reflexivity|].
  apply (schedule_follows_catalog_order "generative ai" _ 5 3 "rag" 10 _ Hm).
  vm_compute. reflexivity.
Defined.










(** * Arguments as the tools read them *)

(** ** Upper and lower case *)

Lemma is_space_lower_char (c : ascii) : is_space (lower_char c) = is_space c.
Proof. destruct c as [[] [] [] [] [] [] [] []]; reflexivity. Qed.

Lemma comma_lower_char (c : ascii) :
  Ascii.eqb (lower_char c) "," = Ascii.eqb c ",".
Proof. destruct c as [[] [] [] [] [] [] [] []]; reflexivity. Qed.

Lemma lower_lstrip (s : string) : lstrip (lower s) = lower (lstrip s).
Proof.
  induction s as [|c s IH]; simpl; [done|].
  rewrite is_space_lower_char. by destruct (is_space c).
Qed.

Lemma lower_rstrip (s : string) : rstrip (lower s) = lower (rstrip s).
Proof.
  induction s as [|c s IH]; simpl; [done|].
  rewrite IH, is_space_lower_char.
  destruct (rstrip s); simpl; [by destruct (is_space c) | done].
Qed.

Lemma lower_strip (s : string) : strip (lower s) = lower (strip s).
Proof. unfold strip. by rewrite lower_lstrip, lower_rstrip. Qed.

Lemma lower_split (s : string) :
  split "," (lower s) = map lower (split "," s).
Proof.
  induction s as [|c s IH]; simpl; [done|].
  rewrite comma_lower_char, IH.
  destruct (Ascii.eqb c ","); simpl; [done|].
  by destruct (split "," s).
Qed.

Lemma truthy_lower (s : string) : truthy (lower s) = truthy s.
Proof. by destruct s. Qed.

(** The parsed list of a comma-separated argument does not depend on the
    case of the argument. *)
Lemma comma_list_lower (text : string) :
  comma_list (lower text) = comma_list text.
Proof.
  unfold comma_list. rewrite lower_split.
  induction (split "," text) as [|piece pieces IH]; simpl; [done|].
  rewrite lower_strip, truthy_lower.
  destruct (truthy (strip piece)); simpl; [|done].
  by rewrite IH, lower_strip, lower_idempotent.
Qed.

(** X7: upper and lower case make no difference, neither in the module name
    nor in the weak or focus topics: two calls whose arguments differ in
    case only find the same topics, suggest the same practice tasks and
    fill the same schedule. *)
Theorem matching_is_case_insensitive (module_name module_name' : string)
    (text text' : string) :
  lower module_name = lower module_name' ->
  lower text = lower text' ->
  lookup_topics module_name = lookup_topics module_name'
  /\ (lookup_topics module_name <> None ->
      suggest_practice_tasks module_name text
      = suggest_practice_tasks module_name' text')
  /\ (forall fuel topics days_until_exam hours_per_day,
        fill_schedule fuel topics days_until_exam hours_per_day text
        = fill_schedule fuel topics days_until_exam hours_per_day text').
Proof.
  intros Hm Ht.
  assert (Hlist : comma_list text = comma_list text')
    by (rewrite <- (comma_list_lower text), Ht; apply comma_list_lower).
  assert (Hlookup : lookup_topics module_name = lookup_topics module_name')
    by (unfold lookup_topics; by rewrite Hm).
  split; [done|]. split.
  - intros Hknown. unfold suggest_practice_tasks.
    rewrite <- Hlookup, Hlist.
    by destruct (lookup_topics module_name).
  - intros. unfold fill_schedule, weak_list_of. by rewrite Hlist.
Qed.

Lemma matching_is_case_insensitive_witness :
  lookup_topics "Generative AI" = lookup_topics "generative ai"
  /\ suggest_practice_tasks "Generative AI" "RAG, Agents"
     = suggest_practice_tasks "generative ai" "rag, agents"
  /\ fill_schedule 10 ["RAG"; "LangChain basics"] 5 3 "RAG"
     = fill_schedule 10 ["RAG"; "LangChain basics"] 5 3 "rag".
Proof.
  destruct (matching_is_case_insensitive "Generative AI" "generative ai"
              "RAG, Agents" "rag, agents" eq_refl eq_refl)
    as (H1 & H2 & _).
  destruct (matching_is_case_insensitive "Generative AI" "generative ai"
              "RAG" "rag" eq_refl eq_refl)
    as (_ & _ & H3).
  split; [exact H1|]. split; [|apply H3].
  apply H2. vm_compute. discriminate.
Defined.

(** ** Blank pieces *)

Lemma lower_not_empty (s : string) : s <> EmptyString -> lower s <> EmptyString.
Proof. by destruct s. Qed.

Lemma contains_empty (t : string) : contains EmptyString t = true.
Proof. by destruct t. Qed.

(** X8: an argument whose pieces between commas are all blank (the empty
    string, or only commas and white space) is read as no word at all: no
    topic is weak and every weight is 1, and the practice tasks are those
    of an empty focus.  No parsed word is ever empty, so the empty word,
    which occurs in every topic name, never marks a topic. *)
Theorem blank_pieces_are_ignored (text : string) :
  (forall w, In w (comma_list text) -> w <> EmptyString /\ lower w = w)
  /\ ((forall piece, In piece (split "," text) -> strip piece = EmptyString) ->
      comma_list text = []
      /\ (forall topics,
            weights_of (weak_list_of text) topics = map (fun _ => 1%Z) topics)
      /\ (forall module_name,
            suggest_practice_tasks module_name text
            = suggest_practice_tasks module_name EmptyString)).
Proof.
  split.
  - intros w (piece & _ & Hne & ->)%comma_list_iff.
    split; [by apply lower_not_empty | apply lower_idempotent].
  - intros Hblank.
    assert (Hnil : comma_list text = []).
    { unfold comma_list.
      induction (split "," text) as [|piece pieces IH]; simpl; [done|].
      rewrite (Hblank piece) by (by left). simpl.
      apply IH. intros p Hp. apply Hblank. by right. }
    split; [done|]. split.
    + intros topics. unfold weak_list_of, weights_of. by rewrite Hnil.
    + intros module_name. unfold suggest_practice_tasks. by rewrite Hnil.
Qed.

Lemma blank_pieces_are_ignored_witness :
  comma_list " , ," = []
  /\ weights_of (weak_list_of " , ,") ["RAG"; "LangChain basics"]
     = [1%Z; 1%Z]
  /\ contains EmptyString (lower "RAG") = true.
Proof.
  destruct (blank_pieces_are_ignored " , ,") as [_ H].
  destruct H as (H1 & H2 & _).
  - intros piece [<-|[<-|[<-|[]]]]; reflexivity.
  - split; [exact H1|]. split; [apply (H2 ["RAG"; "LangChain basics"])|].
    apply contains_empty.
Defined.

(** ** The three kinds of answer *)

(** X9: a tool answers "No module named ..." only when the module is unknown:
    for a known module the outline, the schedule text, the message of the
    empty schedule, the practice tasks and the message of no matches all
    differ from it, whatever the module name spells. *)
Theorem not_found_only_for_unknown_modules (str_float : Q -> string)
    (module_name : string) :
  (get_module_outline module_name = not_found module_name
   <-> lookup_topics module_name = None)
  /\ (forall focus_topics,
        suggest_practice_tasks module_name focus_topics
        = not_found module_name
        <-> lookup_topics module_name = None)
  /\ (forall fuel days_until_exam hours_per_day weak_topics,
        build_study_schedule str_float fuel module_name
          days_until_exam hours_per_day weak_topics
        = Done (not_found module_name)
        <-> lookup_topics module_name = None).
Proof.
  split; [|split].
  - unfold get_module_outline.
    destruct (lookup_topics module_name) as [topics|]; [|done].
    split; [|done]. unfold join. cbn [app].
    destruct (map _ topics); simpl; discriminate.
  - intros focus_topics. unfold suggest_practice_tasks.
    destruct (lookup_topics module_name) as [topics|]; [|done].
    split; [|done]. simpl. rewrite practice_loop_spec.
    destruct (flat_map _ _) as [|l ls]; simpl; [discriminate|].
    discriminate.
  - intros fuel days_until_exam hours_per_day weak_topics.
    unfold build_study_schedule.
    destruct (lookup_topics module_name) as [topics|]; [|done].
    split; [|done].
    destruct (fill_schedule _ _ _ _ _) as [schedule| |]; simpl; [|done..].
    unfold render_schedule, schedule_lines.
    destruct (4 <? _)%nat; [|discriminate].
    generalize (day_lines str_float
                  (schedule_items days_until_exam schedule)).
    intros more. cbn [app join String.concat]. discriminate.
Qed.

(** * The tool log and the runner *)

Section ToolLog.

Variable str_float : Q -> string.
Variable repr_input : list (string * pyval) -> string.

(** With the fuel of [enough_fuel] the schedule builder returns a text,
    whatever its arguments. *)
Lemma build_study_schedule_returns module_name days_until_exam hours_per_day
    weak_topics :
  exists text,
    build_study_schedule str_float (enough_fuel days_until_exam) module_name
      days_until_exam hours_per_day weak_topics = Done text.
Proof.
  unfold build_study_schedule.
  destruct (lookup_topics module_name) as [topics|] eqn:Hm; [|by eexists].
  pose proof (lookup_topics_nonempty _ _ Hm) as Hne.
  destruct (Z_lt_le_dec days_until_exam 1) as [Hdays|Hdays];
    [|destruct (Qlt_le_dec 0 hours_per_day) as [Hhours|Hhours]].
  - rewrite fill_schedule_known by done.
    rewrite for_topics_idle by (by left). simpl. by eexists.
  - destruct (fill_schedule_valid topics days_until_exam hours_per_day
                weak_topics Hne Hdays Hhours) as (d' & schedule & Hrun & _).
    destruct (Hrun _ (le_n _)) as [_ ->]. by eexists.
  - rewrite fill_schedule_known by done.
    rewrite for_topics_idle.
    + simpl. by eexists.
    + right. apply topic_hours_nonpos; [done|].
      assert ((0 <= inject_Z days_until_exam)%Q).
      { change 0%Q with (inject_Z 0). rewrite <- Zle_Qle. lia. }
      nra.
Qed.

(** A tool call adds its one entry to the log and returns a text. *)
Lemma call_tool_logs c log :
  exists text,
    call_tool str_float c log = ((log ++ [entry_of_call c])%list, Done text).
Proof.
  destruct c as [m|m d h w|m f]; simpl.
  - by eexists.
  - unfold build_study_schedule_tool, log_tool.
    destruct (build_study_schedule_returns m d h w) as [text ->].
    by eexists.
  - by eexists.
Qed.

(** The text of a tool does not depend on the log. *)
Lemma call_tool_text c log :
  snd (call_tool str_float c log) = snd (call_tool str_float c []).
Proof. by destruct c. Qed.

(** A run appends the entries of its calls, in order; how it ends does not
    depend on the log, and it ends. *)
Lemma invoke_log run :
  forall log,
    exists result,
      invoke str_float run log
      = ((log ++ map entry_of_call (calls_made str_float run))%list, result)
      /\ result <> NoReturn
      /\ result = snd (invoke str_float run []).
Proof.
  induction run as [content|message|c next IH]; intros log.
  - exists (Returns content). simpl. by rewrite app_nil_r.
  - exists (Raises message). simpl. by rewrite app_nil_r.
  - destruct (call_tool_logs c log) as [text Hc].
    destruct (call_tool_logs c []) as [text' Hc'].
    assert (text' = text) as ->.
    { pose proof (call_tool_text c log) as Heq.
      rewrite Hc, Hc' in Heq. simpl in Heq. by injection Heq. }
    cbn [invoke calls_made]. rewrite Hc, Hc'. cbn [snd].
    destruct (IH text (log ++ [entry_of_call c])%list)
      as (result & Hrun & Hend & Hsame).
    destruct (IH text ([] ++ [entry_of_call c])%list)
      as (result' & Hrun' & _ & Hsame').
    exists result. rewrite Hrun, Hrun'. cbn [snd map].
    rewrite <- app_assoc. simpl. split; [done|]. split; [done|]. congruence.
Qed.

Lemma run_study_coach_unfold agent query TOOL_LOG :
  run_study_coach str_float repr_input agent query TOOL_LOG
  = let calls := calls_made str_float (agent query) in
    (map entry_of_call calls,
     match snd (invoke str_float (agent query) []) with
     | Returns final_answer =>
         Returns (final_answer,
                  tool_log_text_of repr_input (map entry_of_call calls))
     | Raises message => Raises message
     | NoReturn => NoReturn
     end).
Proof.
  unfold run_study_coach.
  destruct (invoke_log (agent query) []) as (result & Hrun & _ & _).
  rewrite Hrun. simpl. by destruct result.
Qed.

End ToolLog.


(** X11: when [run_study_coach] returns [(final_answer, tool_log_text)], the
    text is "No tools were called." exactly when the agent called no tool
    in this run; otherwise it is the line "Tool call sequence:" followed by
    one line per call, numbered from 1 in the order of the calls:
    [i. <tool> → <arguments>]. *)
Theorem tool_log_text_numbers_the_calls (str_float : Q -> string)
    (repr_input : list (string * pyval) -> string) (agent : agent_t)
    (query final_answer tool_log_text : string)
    (before after : list log_entry) :
  run_study_coach str_float repr_input agent query before
  = (after, Returns (final_answer, tool_log_text)) ->
  let calls := calls_made str_float (agent query) in
  (tool_log_text = "No tools were called." <-> calls = [])
  /\ (calls <> [] ->
      tool_log_text
      = join nl
          ("Tool call sequence:"
             :: imap (fun i c =>
                        str_int (Z.of_nat i + 1) ++ ". "
                          ++ tool (entry_of_call c) ++ arrow
                          ++ repr_input (input (entry_of_call c)))
                     calls)).
Proof.
  rewrite run_study_coach_unfold. cbv zeta. intros Hrun.
  destruct (snd (invoke str_float (agent query) [])) as [answer| |];
    try discriminate Hrun.
  injection Hrun as _ _ <-.
  destruct (calls_made str_float (agent query)) as [|c calls].
  - split; [done|]. by intros [].
  - split.
    + split; [|done]. unfold tool_log_text_of. cbn [map is_nil].
      unfold join. discriminate.
    + intros _. unfold tool_log_text_of. cbn [map is_nil].
      do 2 f_equal. rewrite <- (fmap_cons entry_of_call).
      change (map entry_of_call) with (fmap (M:=list) entry_of_call).
      rewrite imap_fmap. apply imap_ext. intros i x _. simpl.
      do 2 f_equal. lia.
Qed.

Lemma tool_log_text_numbers_the_calls_witness :
  exists tool_log_text,
    snd (run_study_coach (fun _ => EmptyString) (fun _ => "{}")
           (fun query => Calls (CallOutline query) Final) "rag" [])
    = Returns ("No module named 'rag' found.", tool_log_text)
    /\ tool_log_text <> "No tools were called.".
Proof.
  eassert (Hrun : run_study_coach (fun _ => EmptyString) (fun _ => "{}")
                    (fun query => Calls (CallOutline query) Final) "rag" []
                  = (_, Returns (_, _))) by (vm_compute; reflexivity).
  eexists. split; [exact (f_equal snd Hrun)|].
  intros H.
  apply (tool_log_text_numbers_the_calls _ _ _ _ _ _ _ _ Hrun) in H.
  discriminate H.
Defined.

(** * The user interface *)

Section Interface.

Variable str_float : Q -> string.
Variable repr_input : list (string * pyval) -> string.
Variable new_agent : string -> run_result agent_t.

(** With an agent at hand, the interface runs it and nothing else. *)
Lemma study_coach_interface_loaded a query st :
  agent st = Some a ->
  study_coach_interface str_float repr_input new_agent query st
  = let calls := calls_made str_float (a query) in
    ({| agent := Some a;
        GROQ_API_KEY := GROQ_API_KEY st;
        TOOL_LOG := map entry_of_call calls |},
     match snd (invoke str_float (a query) []) with
     | Returns final_answer =>
         Returns (final_answer,
                  tool_log_text_of repr_input (map entry_of_call calls))
     | Raises message => Returns (error_prefix ++ message, EmptyString)
     | NoReturn => NoReturn
     end).
Proof.
  intros Ha. unfold study_coach_interface, load_agent. rewrite Ha.
  cbn beta iota. rewrite !Ha.
  rewrite run_study_coach_unfold. cbv zeta.
  by destruct (snd (invoke str_float (a query) [])).
Qed.

(** The first call with a key builds the agent and keeps it. *)
Lemma load_agent_builds a st :
  agent st = None ->
  key_is_set (GROQ_API_KEY st) = true ->
  new_agent (default EmptyString (GROQ_API_KEY st)) = Returns a ->
  load_agent new_agent st
  = ({| agent := Some a;
        GROQ_API_KEY := GROQ_API_KEY st;
        TOOL_LOG := TOOL_LOG st |},
     Returns a).
Proof.
  intros Hnone Hkey Hnew. unfold load_agent, build_agent.
  by rewrite Hnone, Hkey, Hnew.
Qed.

End Interface.

(** X12: when no agent is loaded and [GROQ_API_KEY] is unset or empty, the
    interface answers with the error text of ui.py and an empty log text.
    Nothing else happens: no agent is built, no tool runs, [agent] stays
    [None] and [TOOL_LOG] keeps the entries of the run before. *)
Theorem missing_key_is_reported (str_float : Q -> string)
    (repr_input : list (string * pyval) -> string)
    (new_agent : string -> run_result agent_t) (query : string)
    (st : ui_state) :
  agent st = None ->
  key_is_set (GROQ_API_KEY st) = false ->
  study_coach_interface str_float repr_input new_agent query st
  = (st,
     Returns (error_prefix
                ++ "GROQ_API_KEY environment variable is not set." ++ nl
                ++ "Please set it before running the UI:" ++ nl
                ++ "   export GROQ_API_KEY='your-key-here'",
              EmptyString)).
Proof.
  intros Hnone Hkey. unfold study_coach_interface, load_agent.
  by rewrite Hnone, Hkey.
Qed.

Lemma missing_key_is_reported_witness :
  fst (study_coach_interface (fun _ => EmptyString) (fun _ => "{}")
         (fun _ => Returns Final) "plan my week"
         {| agent := None;
            GROQ_API_KEY := Some EmptyString;
            TOOL_LOG := [entry_of_call (CallOutline "rag")] |})
  = {| agent := None;
       GROQ_API_KEY := Some EmptyString;
       TOOL_LOG := [entry_of_call (CallOutline "rag")] |}.
Proof.
  rewrite (missing_key_is_reported (fun _ => EmptyString) (fun _ => "{}")
             (fun _ => Returns Final) "plan my week");
    reflexivity.
Defined.

(** X13: the agent is built once.  The first call that finds a key stores
    the agent that the libraries built; every later call runs that agent,
    and its answer depends neither on the key at that time (it may be gone
    or changed), nor on what the libraries would build then, nor on the log
    left by earlier runs. *)
Theorem agent_is_built_once (str_float : Q -> string)
    (repr_input : list (string * pyval) -> string)
    (new_agent : string -> run_result agent_t) (a : agent_t)
    (first_query : string) (st : ui_state) :
  agent st = None ->
  key_is_set (GROQ_API_KEY st) = true ->
  new_agent (default EmptyString (GROQ_API_KEY st)) = Returns a ->
  let st1 :=
    fst (study_coach_interface str_float repr_input new_agent first_query st)
  in
  agent st1 = Some a
  /\ forall later_agent later_key later_log query,
       let st2 := {| agent := agent st1;
                     GROQ_API_KEY := later_key;
                     TOOL_LOG := later_log |} in
       agent (fst (study_coach_interface str_float repr_input later_agent
                     query st2)) = Some a
       /\ snd (study_coach_interface str_float repr_input later_agent
                 query st2)
          = snd (study_coach_interface str_float repr_input new_agent
                   query st1).
Proof.
  intros Hnone Hkey Hnew st1.
  assert (Hst1 : agent st1 = Some a).
  { subst st1. unfold study_coach_interface.
    rewrite (load_agent_builds new_agent a st Hnone Hkey Hnew).
    cbn [agent TOOL_LOG]. rewrite run_study_coach_unfold. cbv zeta.
    by destruct (snd (invoke str_float (a first_query) [])). }
  split; [done|]. intros later_agent later_key later_log query st2.
  rewrite (study_coach_interface_loaded str_float repr_input later_agent a
             query st2) by (subst st2; done).
  rewrite (study_coach_interface_loaded str_float repr_input new_agent a
             query st1) by done.
  done.
Qed.

Lemma agent_is_built_once_witness :
  snd (study_coach_interface (fun _ => EmptyString) (fun _ => "{}")
         (fun _ => Raises "no network") "rag"
         {| agent :=
              agent
                (fst (study_coach_interface (fun _ => EmptyString)
                        (fun _ => "{}")
                        (fun _ => Returns
                                    (fun query =>
                                       Calls (CallOutline query) Final))
                        "hello"
                        {| agent := None;
                           GROQ_API_KEY := Some "gsk";
                           TOOL_LOG := [] |}));
            GROQ_API_KEY := None;
            TOOL_LOG := [] |})
  = Returns ("No module named 'rag' found.",
             "Tool call sequence:" ++ nl ++ "1. get_module_outline" ++ arrow
               ++ "{}").
Proof.
  rewrite (proj2 (proj2 (agent_is_built_once (fun _ => EmptyString)
                    (fun _ => "{}")
                    (fun _ => Returns
                                (fun query => Calls (CallOutline query) Final))
                    (fun query => Calls (CallOutline query) Final)
                    "hello"
                    {| agent := None;
                       GROQ_API_KEY := Some "gsk";
                       TOOL_LOG := [] |}
                    eq_refl eq_refl eq_refl)
             (fun _ => Raises "no network") None [] "rag")).
  vm_compute. reflexivity.
Defined.



(** X15: when the agent's run raises after it has called tools, the
    interface shows the error and an empty log text, although
    [TOOL_LOG] holds the entries of the calls that were made. *)
Theorem failed_run_hides_the_log (str_float : Q -> string)
    (repr_input : list (string * pyval) -> string)
    (new_agent : string -> run_result agent_t) (a : agent_t)
    (query message : string) (st : ui_state) :
  agent st = Some a ->
  snd (invoke str_float (a query) []) = Raises message ->
  study_coach_interface str_float repr_input new_agent query st
  = ({| agent := Some a;
        GROQ_API_KEY := GROQ_API_KEY st;
        TOOL_LOG := map entry_of_call (calls_made str_float (a query)) |},
     Returns (error_prefix ++ message, EmptyString)).
Proof.
  intros Ha Hrun.
  rewrite (study_coach_interface_loaded _ _ _ a query st Ha).
  cbv zeta. by rewrite Hrun.
Qed.

Lemma failed_run_hides_the_log_witness :
  exists st',
    study_coach_interface (fun _ => EmptyString) (fun _ => "{}")
      (fun _ => NoReturn) "rag"
      {| agent := Some (fun query =>
                          Calls (CallOutline query)
                            (fun _ => Throws "rate limit"));
         GROQ_API_KEY := None;
         TOOL_LOG := [] |}
    = (st', Returns (error_prefix ++ "rate limit", EmptyString))
    /\ TOOL_LOG st' = [entry_of_call (CallOutline "rag")].
Proof.
  eexists. split.
  - apply (failed_run_hides_the_log (fun _ => EmptyString) (fun _ => "{}")
             (fun _ => NoReturn)
             (fun query =>
                Calls (CallOutline query) (fun _ => Throws "rate limit"))
             "rag" "rate limit");
      reflexivity.
  - reflexivity.
Defined.

(** * Weak topics that cover the whole module *)

Section SameHours.

Variable days_until_exam : Z.
Variable hours_per_day : Q.

Lemma round_half_even_comp (x y : Q) :
  x == y -> round_half_even x = round_half_even y.
Proof.
  intros H. unfold round_half_even. rewrite (Qfloor_comp _ _ H).
  assert (Qcompare (x - inject_Z (Qfloor y)) (1 # 2)
          = Qcompare (y - inject_Z (Qfloor y)) (1 # 2)) as ->; [|done].
  apply Qcompare_comp; [|reflexivity]. by rewrite H.
Qed.

Lemma round1_comp (x y : Q) : x == y -> round1 x = round1 y.
Proof.
  intros H. unfold round1.
  rewrite (round_half_even_comp (x * 10) (y * 10)); [done|]. by rewrite H.
Qed.

Lemma py_min_comp (r r' h : Q) : r == r' -> py_min r h == py_min r' h.
Proof.
  intros H. unfold py_min, Qlt_bool.
  rewrite (Qleb_comp r r' H h h (Qeq_refl h)).
  by destruct (Qle_bool r' h).
Qed.

Lemma while_body_comp topic (r r' : Q) day (schedule : schedule_t) :
  r == r' ->
  same_run (while_body hours_per_day topic r day schedule)
           (while_body hours_per_day topic r' day schedule).
Proof.
  intros H. unfold while_body.
  destruct (schedule !! day) as [items|]; [|done].
  pose proof (py_min_comp r r' (hours_per_day / 2) H) as Hmin.
  rewrite (round1_comp _ _ Hmin). cbv zeta. unfold same_run.
  split; [|done]. unfold Qminus.
  apply Qplus_comp; [exact H | by apply Qopp_comp].
Qed.

Lemma while_remaining_comp fuel topic :
  forall (r r' : Q) day (schedule : schedule_t),
    r == r' ->
    same_run
      (while_remaining fuel days_until_exam hours_per_day topic r day
         schedule)
      (while_remaining fuel days_until_exam hours_per_day topic r' day
         schedule).
Proof.
  induction fuel as [|fuel IH]; intros r r' day schedule H;
    cbn [while_remaining]; unfold while_test, Qlt_bool;
    rewrite (Qleb_comp r r' H 0 0 (Qeq_refl 0));
    destruct (negb (Qle_bool r' 0) && (day <=? days_until_exam)%Z);
    try done.
  pose proof (while_body_comp topic r r' day schedule H) as Hbody.
  destruct (while_body hours_per_day topic r day schedule)
    as [[[r1 d1] s1]|e1|],
    (while_body hours_per_day topic r' day schedule)
    as [[[r2 d2] s2]|e2|]; try done.
  simpl in Hbody. destruct Hbody as (Hr & -> & ->). simpl. by apply IH.
Qed.

(** The [for] loop does the same with hours that are equal as numbers. *)
Lemma for_topics_comp fuel (pairs pairs' : list (string * Q)) :
  Forall2 (fun p q => fst p = fst q /\ snd p == snd q) pairs pairs' ->
  forall day (schedule : schedule_t),
    for_topics fuel days_until_exam hours_per_day pairs day schedule
    = for_topics fuel days_until_exam hours_per_day pairs' day schedule.
Proof.
  induction 1 as [|[t h] [t' h'] ps ps' [Ht Hh] _ IH]; intros day schedule;
    [done|].
  simpl in Ht, Hh. subst t'. cbn [for_topics].
  pose proof (while_remaining_comp fuel t h h' day schedule Hh) as Hrun.
  destruct (while_remaining fuel days_until_exam hours_per_day t h day
              schedule) as [[[r1 d1] s1]|e1|],
    (while_remaining fuel days_until_exam hours_per_day t h' day
       schedule) as [[[r2 d2] s2]|e2|]; try done.
  - simpl in Hrun. destruct Hrun as (_ & -> & ->). simpl. apply IH.
  - simpl in Hrun. by subst.
Qed.

End SameHours.

Lemma sum_int_constant {A : Type} (c : Z) (l : list A) :
  sum_int (map (fun _ => c) l) = (c * Z.of_nat (List.length l))%Z.
Proof.
  induction l as [|x l IH]; [simpl; unfold sum_int; simpl; lia|].
  cbn [map]. rewrite sum_int_cons, IH. simpl List.length. lia.
Qed.

Lemma weights_of_all_weak weak_list topics :
  Forall (fun t => any_in weak_list t = true) topics ->
  weights_of weak_list topics = map (fun _ => 2%Z) topics.
Proof.
  unfold weights_of. induction 1 as [|t ts Ht _ IH]; [done|].
  cbn [map]. by rewrite Ht, IH.
Qed.

Lemma weights_of_none_weak topics :
  weights_of [] topics = map (fun _ => 1%Z) topics.
Proof. done. Qed.

Lemma combine_constant_hours (topics : list string) (h h' : Q) :
  h == h' ->
  Forall2 (fun p q => fst p = fst q /\ snd p == snd q)
    (combine topics (map (fun _ => h) topics))
    (combine topics (map (fun _ => h') topics)).
Proof.
  intros H. induction topics as [|t ts IH]; simpl; constructor; done.
Qed.

(** X16: weak topics that cover every topic of the module change nothing.
    When each topic contains one of the weak substrings, every weight is 2,
    every share is again one part in [len(topics)], and the loop fills the
    dictionary exactly as it does with no weak topic at all: the same
    entries, with the same hours, on the same days. *)
Theorem weak_topics_covering_all_change_nothing (fuel : nat)
    (topics : list string) (days_until_exam : Z) (hours_per_day : Q)
    (weak_topics : string) :
  Forall (fun t => any_in (weak_list_of weak_topics) t = true) topics ->
  fill_schedule fuel topics days_until_exam hours_per_day weak_topics
  = fill_schedule fuel topics days_until_exam hours_per_day EmptyString.
Proof.
  intros Hall. destruct (decide (topics = [])) as [->|Hne]; [done|].
  rewrite !fill_schedule_known by done.
  unfold topic_hours, spec_hours.
  rewrite (weights_of_all_weak _ _ Hall).
  change (weak_list_of EmptyString) with (@nil string).
  rewrite weights_of_none_weak, !sum_int_constant, !map_map.
  assert (Hlen : (0 < Z.of_nat (List.length topics))%Z)
    by (destruct topics; [done | simpl List.length; lia]).
  assert (Hn : ~ inject_Z (Z.of_nat (List.length topics)) == 0).
  { change 0 with (inject_Z 0). rewrite inject_Z_injective. lia. }
  assert (Heq : inject_Z 2 / inject_Z (2 * Z.of_nat (List.length topics))
                  * (inject_Z days_until_exam * hours_per_day)
                == inject_Z 1 / inject_Z (1 * Z.of_nat (List.length topics))
                   * (inject_Z days_until_exam * hours_per_day)).
  { rewrite !inject_Z_mult. change (inject_Z 2) with 2.
    change (inject_Z 1) with 1. field. done. }
  by rewrite (for_topics_comp days_until_exam hours_per_day fuel _ _
                (combine_constant_hours topics _ _ Heq)).
Qed.

Lemma weak_topics_covering_all_change_nothing_witness :
  fill_schedule 10 (default [] (SYLLABUS !! "generative ai")) 5 3 "a, E"
  = fill_schedule 10 (default [] (SYLLABUS !! "generative ai")) 5 3
      EmptyString.
Proof.
  apply weak_topics_covering_all_change_nothing.
  repeat (constructor; [vm_compute; reflexivity|]). constructor.
Defined.
